(** * Funky Todo API: the task service of [main.py]

    A shallow embedding of the FastAPI task service: documents are Python
    dicts (finite maps from field names to values), the MongoDB collection
    is the list of its documents in natural (insertion) order, and every
    endpoint is a computation in a state-and-exception monad over a world
    holding the database handle and the log of store calls.

    Clock readings ([datetime.utcnow()]) and the identifier the store
    assigns at insertion are inputs of the operations that use them. *)

From Stdlib Require Import ZArith Ascii String List Sorted Permutation.
From stdpp Require Import gmap strings list fin_maps.

Local Open Scope string_scope.
Local Open Scope Z_scope.

(** ** Python and BSON values *)

Module Py.

(** A naive [datetime]: calendar fields, no time zone. *)
Record datetime := mk_datetime {
  year : Z; month : Z; day : Z;
  hour : Z; minute : Z; second : Z; microsecond : Z
}.

#[global] Instance datetime_eq_dec : EqDecision datetime.
Proof. solve_decision. Defined.

(** A BSON ObjectId: its bytes. An id has twelve bytes and is the 96-bit
    number they spell, a number below [2 ^ 96]. The constructor also lets
    through strings that leave fewer bytes (see [ObjectId]): an id of
    [k < 12] bytes is [(12 - k) * 2 ^ 96] plus the number its bytes spell,
    so that ids of different bytes are different numbers. *)
Definition oid := N.

Inductive value :=
| VNone
| VStr (s : string)
| VBool (b : bool)
| VDate (t : datetime)
| VOid (o : oid).

#[global] Instance value_eq_dec : EqDecision value.
Proof. solve_decision. Defined.

(** Truth value of a Python object, as [if v], [not v] and [bool(v)] use it. *)
Definition truthy (v : value) : bool :=
  match v with
  | VNone => false
  | VStr s => negb (String.eqb s "")
  | VBool b => b
  | VDate _ => true
  | VOid _ => true
  end.

(** *** Decimal and hexadecimal rendering *)

Definition digit_char (d : N) : ascii :=
  ascii_of_N (if (d <? 10)%N then 48 + d else 87 + d)%N.

(** The [n] low digits of [x] in base [b], most significant first. *)
Fixpoint digits (b : N) (n : nat) (x : N) (acc : string) : string :=
  match n with
  | O => acc
  | S n' => digits b n' (x / b)%N (String (digit_char (x mod b)%N) acc)
  end.

Definition pad (n : nat) (x : Z) : string := digits 10 n (Z.to_N x) "".

(** [datetime.isoformat(sep)]: microseconds are printed only when nonzero. *)
Definition isoformat_sep (sep : string) (t : datetime) : string :=
  (pad 4 (year t) ++ "-" ++ pad 2 (month t) ++ "-" ++ pad 2 (day t) ++ sep ++
   pad 2 (hour t) ++ ":" ++ pad 2 (minute t) ++ ":" ++ pad 2 (second t) ++
   (if (microsecond t =? 0)%Z then "" else "." ++ pad 6 (microsecond t)))%string.

Definition isoformat (t : datetime) : string := isoformat_sep "T" t.

(** *** [bson.ObjectId] *)

Definition hex_value (c : ascii) : option N :=
  let n := N_of_ascii c in
  if ((48 <=? n) && (n <=? 57))%N then Some (n - 48)%N
  else if ((97 <=? n) && (n <=? 102))%N then Some (n - 87)%N
  else if ((65 <=? n) && (n <=? 70))%N then Some (n - 55)%N
  else None.

(** [Py_ISSPACE]: space, tab, line feed, vertical tab, form feed, carriage
    return. *)
Definition is_space (c : ascii) : bool :=
  let n := N_of_ascii c in
  ((n =? 32) || ((9 <=? n) && (n <=? 13)))%N.

(** [bytes.fromhex(s)]: white space is skipped before each byte, a byte is
    two hexadecimal digits with nothing between them, and anything else is
    a [ValueError]. *)
Fixpoint fromhex (s : string) : option (list N) :=
  match s with
  | EmptyString => Some nil
  | String c r =>
      if is_space c then fromhex r
      else
        match hex_value c, r with
        | Some top, String c' r' =>
            match hex_value c' with
            | Some bot => option_map (cons (16 * top + bot)%N) (fromhex r')
            | None => None
            end
        | _, _ => None
        end
  end.

(** The number that bytes spell, most significant first. *)
Definition bytes_value (bs : list N) : N :=
  fold_left (fun acc b => (256 * acc + b)%N) bs 0%N.

(** The id of at most twelve bytes [bs]. *)
Definition oid_of_bytes (bs : list N) : oid :=
  ((12 - N.of_nat (List.length bs)) * 2 ^ 96 + bytes_value bs)%N.

(** [ObjectId(s)] for a [str] argument: a string of 24 characters goes
    through [bytes.fromhex] and what that returns is the id; a string of
    another length, or one that [bytes.fromhex] refuses, is [InvalidId]. *)
Definition ObjectId (s : string) : option oid :=
  if Nat.eqb (String.length s) 24 then option_map oid_of_bytes (fromhex s)
  else None.

(** The number of bytes of an id. *)
Definition oid_length (o : oid) : nat := 12 - N.to_nat (o / 2 ^ 96).

(** [str(oid)]: the bytes in lowercase hexadecimal digits, 24 of them for a
    twelve-byte id. *)
Definition oid_str (o : oid) : string :=
  digits 16 (2 * oid_length o) (o mod 2 ^ 96)%N "".

(** [str(v)] *)
Definition str (v : value) : string :=
  match v with
  | VNone => "None"
  | VStr s => s
  | VBool true => "True"
  | VBool false => "False"
  | VDate t => isoformat_sep " " t
  | VOid o => oid_str o
  end.

End Py.
Import Py.

Local Open Scope list_scope.

(** ** Documents *)

(** A Python dict of the service, a stored document among them: field name
    to value. *)
Abbreviation dict := (gmap string value).

(** [d.get(k)]: [None] when the key is absent. *)
Definition get (d : dict) (k : string) : value := default VNone (d !! k).

(** [d.get(k, dflt)] *)
Definition get_or (d : dict) (k : string) (dflt : value) : value :=
  default dflt (d !! k).

(** ** The storage order of BSON values

    MongoDB sorts values of different types by type first (null and
    missing fields, then strings, ObjectIds, booleans, dates) and values of
    one type by their own order. *)

Definition lex (c1 c2 : comparison) : comparison :=
  match c1 with Eq => c2 | _ => c1 end.

Definition datetime_compare (a b : datetime) : comparison :=
  lex (year a ?= year b)
 (lex (month a ?= month b)
 (lex (day a ?= day b)
 (lex (hour a ?= hour b)
 (lex (minute a ?= minute b)
 (lex (second a ?= second b)
      (microsecond a ?= microsecond b)))))).

Definition bson_rank (v : value) : Z :=
  match v with
  | VNone => 0
  | VStr _ => 1
  | VOid _ => 2
  | VBool _ => 3
  | VDate _ => 4
  end.

Definition bson_compare (a b : value) : comparison :=
  match a, b with
  | VStr x, VStr y => String.compare x y
  | VOid x, VOid y => (x ?= y)%N
  | VBool x, VBool y => Bool.compare x y
  | VDate x, VDate y => datetime_compare x y
  | _, _ => bson_rank a ?= bson_rank b
  end.

(** [bson_leb a b]: [a] sorts no later than [b] in ascending order. *)
Definition bson_leb (a b : value) : bool :=
  match bson_compare a b with Gt => false | _ => true end.

(** ** The task collection *)

(** [cursor.sort(key, -1)]: descending on [key], a missing field counting
    as null; documents with equal keys keep their natural order. *)
Fixpoint insert_desc (key : string) (d : dict) (l : list dict) : list dict :=
  match l with
  | [] => [d]
  | x :: r =>
      if bson_leb (get x key) (get d key) then d :: x :: r
      else x :: insert_desc key d r
  end.

Definition sort_desc (key : string) (l : list dict) : list dict :=
  foldr (insert_desc key) [] l.

(** The filter [{"_id": o}]. *)
Definition has_id (o : oid) (d : dict) : bool :=
  bool_decide (d !! "_id" = Some (VOid o)).

(** [find_one({"_id": o})] on the documents: the first match. *)
Fixpoint lookup_id (o : oid) (c : list dict) : option dict :=
  match c with
  | [] => None
  | d :: r => if has_id o d then Some d else lookup_id o r
  end.

(** [update_one({"_id": o}, {"$set": upd})] on the documents: the first
    match gets every field of [upd]; the count of matched documents comes
    with the new contents. *)
Fixpoint set_first (o : oid) (upd : dict) (c : list dict) : nat * list dict :=
  match c with
  | [] => (O, [])
  | d :: r =>
      if has_id o d then (1%nat, (upd ∪ d) :: r)
      else let '(n, r') := set_first o upd r in (n, d :: r')
  end.

(** [delete_one({"_id": o})] on the documents. *)
Fixpoint remove_first (o : oid) (c : list dict) : nat * list dict :=
  match c with
  | [] => (O, [])
  | d :: r =>
      if has_id o d then (1%nat, r)
      else let '(n, r') := remove_first o r in (n, d :: r')
  end.

(** ** Worlds, exceptions and the endpoint monad *)

(** One call on [db["task"]], as the log records it. *)
Inductive store_call :=
| Find
| FindOne (o : oid)
| InsertOne (d : dict)
| UpdateOne (o : oid) (upd : dict)
| DeleteOne (o : oid).

(** [db] is the handle imported from the database module: [None] when the
    store is not configured, otherwise the documents of the task
    collection. [calls] logs every store call, latest first. *)
Record world := mk_world {
  db : option (list dict);
  calls : list store_call
}.

(** One constraint violation of a request body: the field and the kind. *)
Inductive violation :=
| Missing | StringType | StringTooShort | StringTooLong | WrongType.

Inductive exn :=
| HTTPException (status_code : Z) (detail : string)
| RequestValidationError (errors : list (string * violation))
| AttributeError
| TypeError
| InvalidId.

Inductive result (A : Type) :=
| Ok (a : A)
| Raise (e : exn).
Arguments Ok {A} a.
Arguments Raise {A} e.

Definition M (A : Type) : Type := world -> result A * world.

Definition ret {A} (a : A) : M A := fun w => (Ok a, w).
Definition raise {A} (e : exn) : M A := fun w => (Raise e, w).
Definition bind {A B} (m : M A) (k : A -> M B) : M B :=
  fun w => match m w with
           | (Ok a, w') => k a w'
           | (Raise e, w') => (Raise e, w')
           end.

Notation "'let*' x ':=' m 'in' k" := (bind m (fun x => k))
  (at level 10, x pattern, m at level 100, k at level 200).

(** Lifting a pure computation that may raise. *)
Definition lift {A} (r : result A) : M A := fun w => (r, w).

(** The value of the global [db]. *)
Definition read_db : M (option (list dict)) := fun w => (Ok (db w), w).

(** A call on [db["task"]]: subscripting [None] is a [TypeError]; otherwise
    the call is logged and [f] gives its result and the new contents. *)
Definition on_task {A} (ev : store_call) (f : list dict -> A * list dict) : M A :=
  fun w => match db w with
           | None => (Raise TypeError, w)
           | Some c => let '(a, c') := f c in
                       (Ok a, mk_world (Some c') (ev :: calls w))
           end.

Definition find_sorted (key : string) : M (list dict) :=
  on_task Find (fun c => (sort_desc key c, c)).

Definition find_one (o : oid) : M (option dict) :=
  on_task (FindOne o) (fun c => (lookup_id o c, c)).

(** Returns [matched_count]. *)
Definition update_one (o : oid) (upd : dict) : M nat :=
  on_task (UpdateOne o upd) (set_first o upd).

(** Returns [deleted_count]. *)
Definition delete_one (o : oid) : M nat :=
  on_task (DeleteOne o) (remove_first o).

Definition insert_one (d : dict) : M unit :=
  on_task (InsertOne d) (fun c => (tt, c ++ [d])).

(** Modelled from the spec: [create_document] of the database module, which
    is not part of the sources. Given a collection name and a field
    mapping it inserts a new record under a store-assigned id and returns
    that id, stamping [created_at] at insertion time if not already
    present. The world holds the task collection only; [now] is the clock
    reading and [new_id] the id the store assigns. *)
Definition create_document (collection_name : string) (data : dict)
    (now : datetime) (new_id : oid) : M string :=
  let data :=
    match data !! "created_at" with
    | Some _ => data
    | None => <["created_at" := VDate now]> data
    end in
  let* _ := insert_one (<["_id" := VOid new_id]> data) in
  ret (oid_str new_id).

(** ** Serialization *)

(** [doc.get(k).isoformat() if doc.get(k) else None]: calling [isoformat]
    on a truthy value that is not a [datetime] is an [AttributeError]. *)
Definition iso_or_none (d : dict) (k : string) : result value :=
  let v := get d k in
  if truthy v then
    match v with
    | VDate t => Ok (VStr (isoformat t))
    | _ => Raise AttributeError
    end
  else Ok VNone.

Definition serialize_task (doc : option dict) : result (option dict) :=
  match doc with
  | None => Ok None
  | Some d =>
      if bool_decide (d = ∅) then Ok (Some d)
      else
        match iso_or_none d "due_date" with
        | Raise e => Raise e
        | Ok due =>
        match iso_or_none d "created_at" with
        | Raise e => Raise e
        | Ok created =>
        match iso_or_none d "updated_at" with
        | Raise e => Raise e
        | Ok updated =>
            Ok (Some (list_to_map [
              ("id", VStr (str (get d "_id")));
              ("title", get d "title");
              ("notes", get d "notes");
              ("priority", get_or d "priority" (VStr "normal"));
              ("due_date", due);
              ("completed", VBool (truthy (get_or d "completed" (VBool false))));
              ("created_at", created);
              ("updated_at", updated)]))
        end end end
  end.

(** [[serialize_task(d) for d in docs]] *)
Fixpoint serialize_all (docs : list dict) : result (list (option dict)) :=
  match docs with
  | [] => Ok []
  | d :: r =>
      match serialize_task (Some d) with
      | Raise e => Raise e
      | Ok x =>
          match serialize_all r with
          | Raise e => Raise e
          | Ok xs => Ok (x :: xs)
          end
      end
  end.

(** ** Request models *)

(** What a JSON body holds for one declared field, after the type
    coercion of the validation library: no such key, [null], a value of
    the field's type, or something the field's type refuses. *)
Inductive field_input (T : Type) :=
| Omitted
| Null
| Given (v : T)
| IllTyped.
Arguments Omitted {T}.
Arguments Null {T}.
Arguments Given {T} v.
Arguments IllTyped {T}.

(** A field of a validated model whose type is [Optional[T]] with default
    [None]: not set by the client, or set to [None] or to a value. *)
Inductive field (T : Type) :=
| unset
| set (v : option T).
Arguments unset {T}.
Arguments set {T} v.

(** The value read from the attribute: the default [None] when unset. *)
Definition field_value {T} (f : field T) : option T :=
  match f with unset => None | set v => v end.

(** [Field(min_length=lo, max_length=hi)] on a string. *)
Definition check_length (lo : nat) (hi : option nat) (s : string) : option violation :=
  if (String.length s <? lo)%nat then Some StringTooShort
  else match hi with
       | Some h => if (h <? String.length s)%nat then Some StringTooLong else None
       | None => None
       end.

(** [str = Field(..., ...)] when [dflt] is [None], [str = Field(dflt, ...)]
    otherwise: [null] is not a string. *)
Definition required_str (dflt : option string) (lo : nat) (hi : option nat)
    (x : field_input string) : violation + string :=
  match x with
  | Omitted => match dflt with Some s => inr s | None => inl Missing end
  | Null => inl StringType
  | Given s => match check_length lo hi s with Some v => inl v | None => inr s end
  | IllTyped => inl StringType
  end.

(** [Optional[str] = Field(None, ...)]: the constraints bind a string, not
    [null]. *)
Definition optional_str (lo : nat) (hi : option nat)
    (x : field_input string) : violation + field string :=
  match x with
  | Omitted => inr unset
  | Null => inr (set None)
  | Given s => match check_length lo hi s with
               | Some v => inl v
               | None => inr (set (Some s))
               end
  | IllTyped => inl StringType
  end.

(** [Optional[T] = None] for an unconstrained type. *)
Definition optional_any {T} (x : field_input T) : violation + field T :=
  match x with
  | Omitted => inr unset
  | Null => inr (set None)
  | Given v => inr (set (Some v))
  | IllTyped => inl WrongType
  end.

Definition errs {A} (name : string) (r : violation + A) : list (string * violation) :=
  match r with inl v => [(name, v)] | inr _ => [] end.

Module TaskCreate.

(** The JSON body of a create request. [completed] is a key the model does
    not declare; undeclared keys are ignored. *)
Record body := mk_body {
  b_title : field_input string;
  b_notes : field_input string;
  b_priority : field_input string;
  b_due_date : field_input datetime;
  b_completed : field_input bool
}.

Record t := mk {
  title : string;
  notes : option string;
  priority : string;
  due_date : option datetime
}.

Definition validate (b : body) : list (string * violation) + t :=
  let rt := required_str None 1 (Some 200%nat) (b_title b) in
  let rn := optional_str 0 (Some 2000%nat) (b_notes b) in
  let rp := required_str (Some "normal") 0 None (b_priority b) in
  let rd := optional_any (b_due_date b) in
  match rt, rn, rp, rd with
  | inr vt, inr vn, inr vp, inr vd =>
      inr (mk vt (field_value vn) vp (field_value vd))
  | _, _, _, _ =>
      inl (errs "title" rt ++ errs "notes" rn ++ errs "priority" rp ++
           errs "due_date" rd)
  end.

End TaskCreate.

Module TaskUpdate.

Record body := mk_body {
  b_title : field_input string;
  b_notes : field_input string;
  b_priority : field_input string;
  b_due_date : field_input datetime;
  b_completed : field_input bool
}.

Record t := mk {
  title : field string;
  notes : field string;
  priority : field string;
  due_date : field datetime;
  completed : field bool
}.

Definition validate (b : body) : list (string * violation) + t :=
  let rt := optional_str 1 (Some 200%nat) (b_title b) in
  let rn := optional_str 0 (Some 2000%nat) (b_notes b) in
  let rp := optional_str 0 None (b_priority b) in
  let rd := optional_any (b_due_date b) in
  let rc := optional_any (b_completed b) in
  match rt, rn, rp, rd, rc with
  | inr vt, inr vn, inr vp, inr vd, inr vc => inr (mk vt vn vp vd vc)
  | _, _, _, _, _ =>
      inl (errs "title" rt ++ errs "notes" rn ++ errs "priority" rp ++
           errs "due_date" rd ++ errs "completed" rc)
  end.

(** One entry of the dumped dict: nothing when the field is unset. *)
Definition dump {T} (k : string) (inj : T -> value) (f : field T) (m : dict) : dict :=
  match f with
  | unset => m
  | set None => <[k := VNone]> m
  | set (Some v) => <[k := inj v]> m
  end.

(** [payload.model_dump(exclude_unset=True)] *)
Definition model_dump_exclude_unset (p : t) : dict :=
  dump "title" VStr (title p)
 (dump "notes" VStr (notes p)
 (dump "priority" VStr (priority p)
 (dump "due_date" VDate (due_date p)
 (dump "completed" VBool (completed p) ∅)))).

End TaskUpdate.

(** ** The endpoints *)

Definition not_configured : exn := HTTPException 500 "Database not configured".
Definition invalid_task_id : exn := HTTPException 400 "Invalid task id".
Definition no_fields : exn := HTTPException 400 "No fields to update".
Definition task_not_found : exn := HTTPException 404 "Task not found".

(** [GET /api/tasks] *)
Definition list_tasks : M (list (option dict)) :=
  let* h := read_db in
  match h with
  | None => raise not_configured
  | Some _ =>
      let* docs := find_sorted "created_at" in
      lift (serialize_all docs)
  end.

(** [POST /api/tasks], on a validated payload. *)
Definition create_task (payload : TaskCreate.t) (now : datetime) (new_id : oid)
    : M (option dict) :=
  let* h := read_db in
  match h with
  | None => raise not_configured
  | Some _ =>
      let* _id := create_document "task" (list_to_map [
          ("title", VStr (TaskCreate.title payload));
          ("notes", from_option VStr VNone (TaskCreate.notes payload));
          ("priority", VStr (TaskCreate.priority payload));
          ("due_date", from_option VDate VNone (TaskCreate.due_date payload));
          ("completed", VBool false)]) now new_id in
      match ObjectId _id with
      | None => raise InvalidId
      | Some oid =>
          let* doc := find_one oid in
          lift (serialize_task doc)
      end
  end.

(** [PATCH /api/tasks/{task_id}], on a validated payload. *)
Definition update_task (task_id : string) (payload : TaskUpdate.t) (now : datetime)
    : M (option dict) :=
  let* h := read_db in
  match h with
  | None => raise not_configured
  | Some _ =>
      match ObjectId task_id with
      | None => raise invalid_task_id
      | Some oid =>
          let updates := TaskUpdate.model_dump_exclude_unset payload in
          if bool_decide (updates = ∅) then raise no_fields
          else
            let updates := <["updated_at" := VDate now]> updates in
            let* matched_count := update_one oid updates in
            if (matched_count =? 0)%nat then raise task_not_found
            else
              let* doc := find_one oid in
              lift (serialize_task doc)
      end
  end.

(** [POST /api/tasks/{task_id}/toggle] *)
Definition toggle_task (task_id : string) (now : datetime) : M (option dict) :=
  let* h := read_db in
  match h with
  | None => raise not_configured
  | Some _ =>
      match ObjectId task_id with
      | None => raise invalid_task_id
      | Some oid =>
          let* doc := find_one oid in
          match doc with
          | None => raise task_not_found
          | Some d =>
              if bool_decide (d = ∅) then raise task_not_found
              else
                let new_val := negb (truthy (get_or d "completed" (VBool false))) in
                let* _ := update_one oid (list_to_map [
                    ("completed", VBool new_val);
                    ("updated_at", VDate now)]) in
                let* doc := find_one oid in
                lift (serialize_task doc)
          end
      end
  end.

(** [DELETE /api/tasks/{task_id}] *)
Definition delete_task (task_id : string) : M unit :=
  let* h := read_db in
  match h with
  | None => raise not_configured
  | Some _ =>
      match ObjectId task_id with
      | None => raise invalid_task_id
      | Some oid =>
          let* deleted_count := delete_one oid in
          if (deleted_count =? 0)%nat then raise task_not_found
          else ret tt
      end
  end.

(** ** The routes

    The framework validates the request body against the declared model
    before it calls the endpoint, and answers a failed validation itself. *)

Definition post_tasks (b : TaskCreate.body) (now : datetime) (new_id : oid)
    : M (option dict) :=
  match TaskCreate.validate b with
  | inl e => raise (RequestValidationError e)
  | inr payload => create_task payload now new_id
  end.

Definition patch_task (task_id : string) (b : TaskUpdate.body) (now : datetime)
    : M (option dict) :=
  match TaskUpdate.validate b with
  | inl e => raise (RequestValidationError e)
  | inr payload => update_task task_id payload now
  end.

(** The status of the response: the route's own on success ([status_code]
    of its decorator, 200 by default), the exception's otherwise. *)
Definition status {A} (success : Z) (r : result A) : Z :=
  match r with
  | Ok _ => success
  | Raise (HTTPException code _) => code
  | Raise (RequestValidationError _) => 422
  | Raise _ => 500
  end.

Definition post_tasks_status := 201.
Definition patch_task_status := 200.
Definition toggle_task_status := 200.
Definition delete_task_status := 204.
Definition list_tasks_status := 200.

(** ** Notions the statements use *)

(** A timestamp field as the data model has it: absent, null or a
    [datetime]. *)
Definition timestamp_ok (d : dict) (k : string) : Prop :=
  match d !! k with
  | None | Some VNone | Some (VDate _) => True
  | Some _ => False
  end.

(** The three timestamp fields of a record are well formed. *)
Definition timestamps_ok (d : dict) : Prop :=
  timestamp_ok d "due_date" /\ timestamp_ok d "created_at" /\
  timestamp_ok d "updated_at".

(** The wire value of a timestamp field. *)
Definition wire_timestamp (d : dict) (k : string) : value :=
  match d !! k with
  | Some (VDate t) => VStr (isoformat t)
  | _ => VNone
  end.

(** The wire dict of a document whose timestamp fields are well formed. *)
Definition wire (d : dict) : dict :=
  list_to_map [
    ("id", VStr (str (get d "_id")));
    ("title", get d "title");
    ("notes", get d "notes");
    ("priority", get_or d "priority" (VStr "normal"));
    ("due_date", wire_timestamp d "due_date");
    ("completed", VBool (truthy (get_or d "completed" (VBool false))));
    ("created_at", wire_timestamp d "created_at");
    ("updated_at", wire_timestamp d "updated_at")].

(** What a payload field makes of the stored field. *)
Definition applied {T} (inj : T -> value) (f : field T) (old : option value)
    : option value :=
  match f with
  | unset => old
  | set None => Some VNone
  | set (Some v) => Some (inj v)
  end.

(** The fields a PATCH body may set. *)
Definition update_fields : list string :=
  ["title"; "notes"; "priority"; "due_date"; "completed"].

(** The [$set] document of an update. *)
Definition updates_of (p : TaskUpdate.t) (now : datetime) : dict :=
  <["updated_at" := VDate now]> (TaskUpdate.model_dump_exclude_unset p).

(** The truth value of the stored [completed], [False] when absent. *)
Definition completed_of (d : dict) : bool :=
  truthy (get_or d "completed" (VBool false)).

(** The [$set] document of a toggle of [d]. *)
Definition toggle_updates (d : dict) (now : datetime) : dict :=
  list_to_map [("completed", VBool (negb (completed_of d)));
               ("updated_at", VDate now)].

(** The field mapping that [create_task] hands to [create_document]. *)
Definition create_data (p : TaskCreate.t) : dict :=
  list_to_map [
    ("title", VStr (TaskCreate.title p));
    ("notes", from_option VStr VNone (TaskCreate.notes p));
    ("priority", VStr (TaskCreate.priority p));
    ("due_date", from_option VDate VNone (TaskCreate.due_date p));
    ("completed", VBool false)].

(** The record that a create persists. *)
Definition created_doc (p : TaskCreate.t) (now : datetime) (new_id : oid) : dict :=
  <["_id" := VOid new_id]> (<["created_at" := VDate now]> (create_data p)).

(** [x] may come right before [y] in a listing that is descending on
    [key]. *)
Definition desc (key : string) (x y : dict) : Prop :=
  bson_leb (get y key) (get x key) = true.

(** A persisted record of the data model: it carries its [_id] and its
    timestamp fields are absent, null or timestamps. *)
Definition record_ok (d : dict) : Prop :=
  is_Some (d !! "_id") /\ timestamps_ok d.

(** The outcome of a comparison whose left side sorts no later. *)
Definition not_gt (c : comparison) : Prop := c ≠ Gt.

(** A request to one of the data routes, with the clock reading and the
    store-assigned id that serving it consumes. *)
Inductive request :=
| GetTasks
| PostTasks (b : TaskCreate.body) (now : datetime) (new_id : oid)
| PatchTask (task_id : string) (b : TaskUpdate.body) (now : datetime)
| PostToggle (task_id : string) (now : datetime)
| DeleteTask (task_id : string).

(** The world after a request is served. *)
Definition serve (r : request) (w : world) : world :=
  match r with
  | GetTasks => snd (list_tasks w)
  | PostTasks b now new_id => snd (post_tasks b now new_id w)
  | PatchTask task_id b now => snd (patch_task task_id b now w)
  | PostToggle task_id now => snd (toggle_task task_id now w)
  | DeleteTask task_id => snd (delete_task task_id w)
  end.

(** The worlds the service reaches from an empty collection. *)
Inductive reachable : world -> Prop :=
| reachable_empty : reachable (mk_world (Some []) [])
| reachable_serve r w : reachable w -> reachable (serve r w).

(** The stored records of a world are records of the data model. *)
Definition store_ok (w : world) : Prop :=
  forall c, db w = Some c -> Forall record_ok c.

(** A value fit for a timestamp field, [None] standing for no such key. *)
Definition timestamp_value_ok (v : option value) : Prop :=
  match v with
  | None | Some VNone | Some (VDate _) => True
  | Some _ => False
  end.

(** The [_id] fields of the stored records, in order. *)
Definition ids (c : list dict) : list (option value) :=
  map (fun d : dict => d !! "_id") c.

(** No two stored records carry the same [_id], as the store's index on
    [_id] has it. *)
Definition unique_ids (c : list dict) : Prop := NoDup (ids c).

(** A record keeps its identity: [_id] and [created_at]. *)
Definition same_identity (d d' : dict) : Prop :=
  d' !! "_id" = d !! "_id" /\ d' !! "created_at" = d !! "created_at".

(** A value on which [v.isoformat() if v else None] raises: truthy and
    not a [datetime]. *)
Definition not_a_timestamp (v : value) : bool :=
  truthy v && match v with VDate _ => false | _ => true end.

(** The keys of the wire shape. *)
Definition wire_keys : gset string :=
  list_to_set ["id"; "title"; "notes"; "priority"; "due_date"; "completed";
               "created_at"; "updated_at"].

(** A wire timestamp: null or a string. *)
Definition null_or_string (v : value) : Prop :=
  v = VNone \/ exists s, v = VStr s.

(** What an accepted body makes of a field of type [Optional[str]] bounded
    by [lo] and [hi] characters: unset when omitted, null when null, the
    string when it fits; nothing else is accepted. *)
Definition accepts_str (lo hi : nat) (x : field_input string) (f : field string)
    : Prop :=
  match x with
  | Omitted => f = unset
  | Null => f = set None
  | Given s => (lo <= String.length s <= hi)%nat /\ f = set (Some s)
  | IllTyped => False
  end.

(** The same for an unbounded field of any type. *)
Definition accepts_any {T} (x : field_input T) (f : field T) : Prop :=
  match x with
  | Omitted => f = unset
  | Null => f = set None
  | Given v => f = set (Some v)
  | IllTyped => False
  end.

(** ** The ObjectId validator *)

Module PyObjectId.

(** [PyObjectId.validate(v)]: an [ObjectId] is returned as it is, anything
    else goes through [ObjectId(str(v))]; a failure of that is the
    [ValueError], given here by its message. *)
Definition validate (v : value) : string + oid :=
  match v with
  | VOid o => inr o
  | _ =>
      match ObjectId (str v) with
      | Some o => inr o
      | None => inl "Invalid ObjectId"
      end
  end.

End PyObjectId.

(** ** The diagnostic endpoint *)

(** A value of the diagnostic response: [None], a string, a list of
    names. *)
Inductive diag :=
| DNone
| DStr (s : string)
| DList (l : list string).

(** [os.getenv(k)] as a condition: set and not empty. *)
Definition env_set (v : option string) : bool :=
  match v with
  | Some s => negb (String.eqb s "")
  | None => false
  end.

(** [GET /test]. Beside the handle it reads [db.name] ([name], [None]
    when the handle has no such attribute), what
    [db.list_collection_names()] gives ([listing]: the names, or the text
    of the exception it raised) and the environment. Nothing in the outer
    [try] raises but that call, which has its own handler. *)
Definition test_database (w : world) (name : option string)
    (listing : string + list string) (getenv : string -> option string)
    : gmap string diag :=
  let response : gmap string diag := list_to_map [
    ("backend", DStr "✅ Running");
    ("database", DStr "❌ Not Available");
    ("database_url", DNone);
    ("database_name", DNone);
    ("connection_status", DStr "Not Connected");
    ("collections", DList [])] in
  let response :=
    match db w with
    | Some _ =>
        let response := <["database" := DStr "✅ Available"]> response in
        let response := <["database_url" := DStr "✅ Configured"]> response in
        let response :=
          <["database_name" := DStr (default "✅ Connected" name)]> response in
        let response := <["connection_status" := DStr "Connected"]> response in
        match listing with
        | inr collections =>
            let response :=
              <["collections" := DList (take 10 collections)]> response in
            <["database" := DStr "✅ Connected & Working"]> response
        | inl e =>
            <["database" :=
                DStr ("⚠️  Connected but Error: " ++ substring 0 50 e)%string]>
              response
        end
    | None =>
        <["database" := DStr "⚠️  Available but not initialized"]> response
    end in
  let response :=
    <["database_url" :=
        DStr (if env_set (getenv "DATABASE_URL") then "✅ Set" else "❌ Not Set")]>
      response in
  let response :=
    <["database_name" :=
        DStr (if env_set (getenv "DATABASE_NAME") then "✅ Set" else "❌ Not Set")]>
      response in
  response.

(** The [k] low bytes of [x], most significant first. *)
Fixpoint low_bytes (k : nat) (x : N) : list N :=
  match k with
  | O => []
  | S k' => low_bytes k' (x / 256)%N ++ [(x mod 256)%N]
  end.

(** Every character of [s] is a hexadecimal digit. *)
Fixpoint all_hex (s : string) : bool :=
  match s with
  | EmptyString => true
  | String c r => bool_decide (is_Some (hex_value c)) && all_hex r
  end.

(** Every character of [s] is a hexadecimal digit or white space. *)
Fixpoint all_hex_or_space (s : string) : bool :=
  match s with
  | EmptyString => true
  | String c r =>
      (bool_decide (is_Some (hex_value c)) || is_space c) && all_hex_or_space r
  end.

(** * Properties *)

(** ** Running an endpoint *)

Ltac unfold_monad :=
  unfold bind, read_db, raise, ret, lift, find_sorted, find_one, update_one,
    delete_one, insert_one, on_task.

Lemma bind_ok {A B} (m : M A) (k : A -> M B) w a w' :
  m w = (Ok a, w') -> bind m k w = k a w'.
Proof. unfold bind. by intros ->. Qed.

Lemma bind_raise {A B} (m : M A) (k : A -> M B) w e w' :
  m w = (Raise e, w') -> bind m k w = (Raise e, w').
Proof. unfold bind. by intros ->. Qed.

Lemma run_read_db w : read_db w = (Ok (db w), w).
Proof. reflexivity. Qed.

Lemma run_on_task {A} ev (f : list dict -> A * list dict) w c :
  db w = Some c ->
  on_task ev f w = (Ok (f c).1, mk_world (Some (f c).2) (ev :: calls w)).
Proof. unfold on_task. intros ->. by destruct (f c). Qed.

Lemma run_find_one o w c :
  db w = Some c ->
  find_one o w = (Ok (lookup_id o c), mk_world (Some c) (FindOne o :: calls w)).
Proof. intros H. unfold find_one. by rewrite (run_on_task _ _ _ _ H). Qed.

Lemma run_update_one o upd w c :
  db w = Some c ->
  update_one o upd w
  = (Ok (set_first o upd c).1,
     mk_world (Some (set_first o upd c).2) (UpdateOne o upd :: calls w)).
Proof. intros H. unfold update_one. by rewrite (run_on_task _ _ _ _ H). Qed.

Lemma run_delete_one o w c :
  db w = Some c ->
  delete_one o w
  = (Ok (remove_first o c).1,
     mk_world (Some (remove_first o c).2) (DeleteOne o :: calls w)).
Proof. intros H. unfold delete_one. by rewrite (run_on_task _ _ _ _ H). Qed.

Lemma run_insert_one d w c :
  db w = Some c ->
  insert_one d w = (Ok tt, mk_world (Some (c ++ [d])) (InsertOne d :: calls w)).
Proof. intros H. unfold insert_one. by rewrite (run_on_task _ _ _ _ H). Qed.

Lemma run_find_sorted key w c :
  db w = Some c ->
  find_sorted key w
  = (Ok (sort_desc key c), mk_world (Some c) (Find :: calls w)).
Proof. intros H. unfold find_sorted. by rewrite (run_on_task _ _ _ _ H). Qed.

Lemma has_id_nonempty o (d : dict) : has_id o d = true -> d ≠ ∅.
Proof.
  unfold has_id. intros H%bool_decide_eq_true ->.
  by rewrite lookup_empty in H.
Qed.

Lemma lookup_id_has_id o c d : lookup_id o c = Some d -> has_id o d = true.
Proof.
  induction c as [|x r IH]; simpl; [done|].
  destruct (has_id o x) eqn:E; [by intros [= <-] | exact IH].
Qed.

(** ** The store handle *)

Section unconfigured.
Variable w : world.
Hypothesis Hdb : db w = None.

Lemma list_tasks_unconfigured :
  list_tasks w = (Raise (HTTPException 500 "Database not configured"), w).
Proof. unfold list_tasks. unfold_monad. by rewrite Hdb. Qed.

Lemma create_task_unconfigured payload now new_id :
  create_task payload now new_id w
  = (Raise (HTTPException 500 "Database not configured"), w).
Proof. unfold create_task. unfold_monad. by rewrite Hdb. Qed.

Lemma update_task_unconfigured task_id payload now :
  update_task task_id payload now w
  = (Raise (HTTPException 500 "Database not configured"), w).
Proof. unfold update_task. unfold_monad. by rewrite Hdb. Qed.

Lemma toggle_task_unconfigured task_id now :
  toggle_task task_id now w
  = (Raise (HTTPException 500 "Database not configured"), w).
Proof. unfold toggle_task. unfold_monad. by rewrite Hdb. Qed.

Lemma delete_task_unconfigured task_id :
  delete_task task_id w
  = (Raise (HTTPException 500 "Database not configured"), w).
Proof. unfold delete_task. unfold_monad. by rewrite Hdb. Qed.
End unconfigured.

(** C10. With the store handle unconfigured, each of the five data
    endpoints raises the 500 "Database not configured" error and leaves the
    world as it was: the documents are untouched and the log of store calls
    gets no entry, so no store call was attempted. *)
Theorem unconfigured_store_500 (w : world) :
  db w = None ->
  let e := HTTPException 500 "Database not configured" in
  list_tasks w = (Raise e, w) /\
  (forall payload now new_id, create_task payload now new_id w = (Raise e, w)) /\
  (forall task_id payload now, update_task task_id payload now w = (Raise e, w)) /\
  (forall task_id now, toggle_task task_id now w = (Raise e, w)) /\
  (forall task_id, delete_task task_id w = (Raise e, w)) /\
  status 200 (Raise (A := unit) e) = 500.
Proof.
  intros Hdb e. repeat split.
  - by apply list_tasks_unconfigured.
  - intros. by apply create_task_unconfigured.
  - intros. by apply update_task_unconfigured.
  - intros. by apply toggle_task_unconfigured.
  - intros. by apply delete_task_unconfigured.
Qed.

Lemma unconfigured_store_500_witness :
  toggle_task "000000000000000000000100" (mk_datetime 2024 1 2 3 4 5 0)
    (mk_world None [])
  = (Raise (HTTPException 500 "Database not configured"), mk_world None []).
Proof.
  pose proof (unconfigured_store_500 (mk_world None []) eq_refl) as H.
  simpl in H. destruct H as (_ & _ & _ & H & _). apply H.
Defined.

(** ** Identifier validation *)

Lemma ObjectId_length s o : ObjectId s = Some o -> String.length s = 24%nat.
Proof.
  unfold ObjectId. by destruct (Nat.eqb_spec (String.length s) 24).
Qed.

(** What [bytes.fromhex] accepts holds hexadecimal digits and white space
    only. *)
Lemma fromhex_chars s :
  (forall bs, fromhex s = Some bs -> all_hex_or_space s = true) /\
  (forall c bs, fromhex (String c s) = Some bs ->
                all_hex_or_space (String c s) = true).
Proof.
  induction s as [|a s [IH1 IH2]].
  - split; [done|]. intros c bs. cbn [fromhex all_hex_or_space].
    destruct (is_space c); [by rewrite orb_true_r|].
    by destruct (hex_value c).
  - split; [exact (IH2 a)|]. intros c bs. cbn [fromhex].
    destruct (is_space c) eqn:Ec.
    + intros H. cbn [all_hex_or_space] in *. rewrite Ec, orb_true_r. simpl.
      exact (IH2 a bs H).
    + destruct (hex_value c) as [top|] eqn:Et; [|done].
      destruct (hex_value a) as [bot|] eqn:Eb; [|done].
      destruct (fromhex s) as [bs'|] eqn:Es; [|done]. intros _.
      cbn [all_hex_or_space]. rewrite Et, Eb.
      rewrite !bool_decide_eq_true_2 by eauto. simpl. by eapply IH1.
Qed.


Section malformed_id.
Variables (w : world) (c : list dict) (task_id : string).
Hypothesis Hdb : db w = Some c.
Hypothesis Hid : ObjectId task_id = None.

Lemma update_task_malformed payload now :
  update_task task_id payload now w
  = (Raise (HTTPException 400 "Invalid task id"), w).
Proof. unfold update_task. unfold_monad. by rewrite Hdb, Hid. Qed.


Lemma delete_task_malformed :
  delete_task task_id w = (Raise (HTTPException 400 "Invalid task id"), w).
Proof. unfold delete_task. unfold_monad. by rewrite Hdb, Hid. Qed.
End malformed_id.

Section parsed_id.
Variables (w : world) (c : list dict) (task_id : string) (o : oid).
Hypothesis Hdb : db w = Some c.
Hypothesis Hid : ObjectId task_id = Some o.



End parsed_id.




(** ** Request validation *)

Lemma check_length_title s :
  s = "" \/ (200 < String.length s)%nat ->
  check_length 1 (Some 200%nat) s
  = Some (if decide (s = "") then StringTooShort else StringTooLong).
Proof.
  unfold check_length. intros [-> | Hlen]; [done|].
  destruct (decide (s = "")) as [-> | _]; [simpl in Hlen; lia|].
  destruct (Nat.ltb_spec (String.length s) 1); [lia|].
  destruct (Nat.ltb_spec 200 (String.length s)); [done | lia].
Qed.

Lemma check_length_notes s :
  (2000 < String.length s)%nat ->
  check_length 0 (Some 2000%nat) s = Some StringTooLong.
Proof.
  unfold check_length. intros Hlen. simpl.
  destruct (Nat.ltb_spec 2000 (String.length s)); [done | lia].
Qed.

Lemma update_validate_title b s v :
  TaskUpdate.b_title b = Given s ->
  check_length 1 (Some 200%nat) s = Some v ->
  exists errors, TaskUpdate.validate b = inl errors /\ ("title", v) ∈ errors.
Proof.
  intros Hb Hv. unfold TaskUpdate.validate. rewrite Hb. simpl. rewrite Hv.
  eexists; split; [reflexivity|]. simpl. apply elem_of_cons. by left.
Qed.

Lemma update_validate_notes b s v :
  TaskUpdate.b_notes b = Given s ->
  check_length 0 (Some 2000%nat) s = Some v ->
  exists errors, TaskUpdate.validate b = inl errors /\ ("notes", v) ∈ errors.
Proof.
  intros Hb Hv. unfold TaskUpdate.validate. rewrite Hb. simpl. rewrite Hv.
  destruct (optional_str 1 _ _); (eexists; split; [reflexivity|]); simpl;
    rewrite ?elem_of_cons; auto.
Qed.

Lemma create_validate_title b s v :
  TaskCreate.b_title b = Given s ->
  check_length 1 (Some 200%nat) s = Some v ->
  exists errors, TaskCreate.validate b = inl errors /\ ("title", v) ∈ errors.
Proof.
  intros Hb Hv. unfold TaskCreate.validate. rewrite Hb. simpl. rewrite Hv.
  eexists; split; [reflexivity|]. simpl. apply elem_of_cons. by left.
Qed.

Lemma create_validate_notes b s v :
  TaskCreate.b_notes b = Given s ->
  check_length 0 (Some 2000%nat) s = Some v ->
  exists errors, TaskCreate.validate b = inl errors /\ ("notes", v) ∈ errors.
Proof.
  intros Hb Hv. unfold TaskCreate.validate. rewrite Hb. simpl. rewrite Hv.
  destruct (required_str None 1 _ _); (eexists; split; [reflexivity|]); simpl;
    rewrite ?elem_of_cons; auto.
Qed.

Lemma patch_task_invalid task_id b now w errors :
  TaskUpdate.validate b = inl errors ->
  patch_task task_id b now w = (Raise (RequestValidationError errors), w).
Proof. intros H. unfold patch_task. by rewrite H. Qed.

Lemma post_tasks_invalid b now new_id w errors :
  TaskCreate.validate b = inl errors ->
  post_tasks b now new_id w = (Raise (RequestValidationError errors), w).
Proof. intros H. unfold post_tasks. by rewrite H. Qed.

(** C8. Update applies the title and notes constraints of create: a
    supplied title that is empty or longer than 200 characters, or supplied
    notes longer than 2000 characters, makes the PATCH route (and, with the
    same violation, the POST route) fail request validation with status
    422, the error list naming the field and its violation, and the world
    is unchanged: nothing is written to the store (nor read from it). *)
Theorem update_field_constraints_422 (w : world) (now : datetime) (s : string) :
  (s = "" \/ (200 < String.length s)%nat ->
   let v := if decide (s = "") then StringTooShort else StringTooLong in
   (forall task_id b, TaskUpdate.b_title b = Given s ->
      exists errors,
        patch_task task_id b now w = (Raise (RequestValidationError errors), w) /\
        ("title", v) ∈ errors /\
        status patch_task_status (fst (patch_task task_id b now w)) = 422) /\
   (forall new_id b, TaskCreate.b_title b = Given s ->
      exists errors,
        post_tasks b now new_id w = (Raise (RequestValidationError errors), w) /\
        ("title", v) ∈ errors)) /\
  ((2000 < String.length s)%nat ->
   (forall task_id b, TaskUpdate.b_notes b = Given s ->
      exists errors,
        patch_task task_id b now w = (Raise (RequestValidationError errors), w) /\
        ("notes", StringTooLong) ∈ errors /\
        status patch_task_status (fst (patch_task task_id b now w)) = 422) /\
   (forall new_id b, TaskCreate.b_notes b = Given s ->
      exists errors,
        post_tasks b now new_id w = (Raise (RequestValidationError errors), w) /\
        ("notes", StringTooLong) ∈ errors)).
Proof.
  split.
  - intros Hs%check_length_title v. split.
    + intros task_id b Hb.
      destruct (update_validate_title b s v Hb Hs) as (errors & Hv & Hin).
      exists errors. rewrite (patch_task_invalid _ _ _ _ _ Hv). done.
    + intros new_id b Hb.
      destruct (create_validate_title b s v Hb Hs) as (errors & Hv & Hin).
      exists errors. rewrite (post_tasks_invalid _ _ _ _ _ Hv). done.
  - intros Hs%check_length_notes. split.
    + intros task_id b Hb.
      destruct (update_validate_notes b s _ Hb Hs) as (errors & Hv & Hin).
      exists errors. rewrite (patch_task_invalid _ _ _ _ _ Hv). done.
    + intros new_id b Hb.
      destruct (create_validate_notes b s _ Hb Hs) as (errors & Hv & Hin).
      exists errors. rewrite (post_tasks_invalid _ _ _ _ _ Hv). done.
Qed.

Lemma update_field_constraints_422_witness :
  let w := mk_world (Some [{["_id" := VOid 256%N]}]) [] in
  exists errors,
    patch_task "000000000000000000000100"
      (TaskUpdate.mk_body (Given "") Omitted Omitted Omitted Omitted)
      (mk_datetime 2024 1 2 3 4 5 0) w
    = (Raise (RequestValidationError errors), w) /\
    ("title", StringTooShort) ∈ errors.
Proof.
  intros w.
  destruct (update_field_constraints_422 w (mk_datetime 2024 1 2 3 4 5 0) "")
    as [H _].
  destruct (H (or_introl eq_refl)) as [H1 _].
  destruct (H1 "000000000000000000000100"
              (TaskUpdate.mk_body (Given "") Omitted Omitted Omitted Omitted)
              eq_refl) as (errors & Hrun & Hin & _).
  exists errors. split; [exact Hrun | exact Hin].
Defined.

(** ** The empty update *)

Lemma model_dump_all_unset :
  TaskUpdate.model_dump_exclude_unset
    (TaskUpdate.mk unset unset unset unset unset) = ∅.
Proof. reflexivity. Qed.

Lemma dump_nonempty {T} k (inj : T -> value) f (m : dict) :
  TaskUpdate.dump k inj f m = ∅ -> f = unset /\ m = ∅.
Proof.
  destruct f as [|[v|]]; simpl; [done| |];
    intros H; by apply insert_non_empty in H.
Qed.

(** The dumped dict is empty exactly when no field was set. *)
Lemma model_dump_empty_iff p :
  TaskUpdate.model_dump_exclude_unset p = ∅
  <-> p = TaskUpdate.mk unset unset unset unset unset.
Proof.
  split; [|intros ->; apply model_dump_all_unset].
  destruct p as [t n pr du co]. unfold TaskUpdate.model_dump_exclude_unset. simpl.
  intros H.
  apply dump_nonempty in H as [-> H]. apply dump_nonempty in H as [-> H].
  apply dump_nonempty in H as [-> H]. apply dump_nonempty in H as [-> H].
  apply dump_nonempty in H as [-> _]. done.
Qed.

Lemma validate_all_omitted :
  TaskUpdate.validate (TaskUpdate.mk_body Omitted Omitted Omitted Omitted Omitted)
  = inr (TaskUpdate.mk unset unset unset unset unset).
Proof. reflexivity. Qed.

Lemma update_task_no_fields w c task_id o payload now :
  db w = Some c ->
  ObjectId task_id = Some o ->
  TaskUpdate.model_dump_exclude_unset payload = ∅ ->
  update_task task_id payload now w
  = (Raise (HTTPException 400 "No fields to update"), w).
Proof.
  intros Hdb Hid He. unfold update_task. unfold_monad.
  rewrite Hdb, Hid, He. by rewrite bool_decide_eq_true_2.
Qed.

(** C2. On a configured store and for a well-formed id, a PATCH whose body
    supplies no field passes validation with every field unset, and the
    update raises the 400 "No fields to update" error with the world
    unchanged: the stored record keeps every field, [updated_at] included,
    and the log of store calls gets no entry, so the failure comes before
    any store write. The same holds of any payload whose dumped set of
    supplied fields is empty. *)
Theorem update_no_fields_400 (w : world) (c : list dict) (task_id : string)
    (o : oid) (now : datetime) :
  db w = Some c ->
  ObjectId task_id = Some o ->
  let e := HTTPException 400 "No fields to update" in
  patch_task task_id
    (TaskUpdate.mk_body Omitted Omitted Omitted Omitted Omitted) now w
  = (Raise e, w) /\
  (forall payload, TaskUpdate.model_dump_exclude_unset payload = ∅ ->
     update_task task_id payload now w = (Raise e, w)) /\
  status patch_task_status (Raise (A := option dict) e) = 400.
Proof.
  intros Hdb Hid e. split; [|split; [|done]].
  - unfold patch_task. rewrite validate_all_omitted.
    eapply update_task_no_fields; eauto.
  - intros payload He. eapply update_task_no_fields; eauto.
Qed.

Lemma update_no_fields_400_witness :
  let w := mk_world (Some [{["_id" := VOid 256%N]}]) [] in
  patch_task "000000000000000000000100"
    (TaskUpdate.mk_body Omitted Omitted Omitted Omitted Omitted)
    (mk_datetime 2024 1 2 3 4 5 0) w
  = (Raise (HTTPException 400 "No fields to update"), w).
Proof.
  intros w.
  exact (proj1 (update_no_fields_400 w [{["_id" := VOid 256%N]}]
                  "000000000000000000000100" 256%N
                  (mk_datetime 2024 1 2 3 4 5 0) eq_refl eq_refl)).
Defined.

(** ** Serialization *)

Lemma iso_or_none_ok d k :
  timestamp_ok d k -> iso_or_none d k = Ok (wire_timestamp d k).
Proof.
  unfold timestamp_ok, iso_or_none, wire_timestamp, get.
  by destruct (d !! k) as [[]|].
Qed.

Lemma serialize_task_wire d :
  d ≠ ∅ -> timestamps_ok d -> serialize_task (Some d) = Ok (Some (wire d)).
Proof.
  intros Hne (Hd & Hc & Hu). unfold serialize_task.
  rewrite bool_decide_eq_false_2 by done.
  by rewrite !iso_or_none_ok.
Qed.

Ltac wire_lookup :=
  unfold wire; simpl;
  rewrite ?lookup_insert_ne by done; apply lookup_insert_eq.

Lemma wire_id d : wire d !! "id" = Some (VStr (str (get d "_id"))).
Proof. wire_lookup. Qed.
Lemma wire_title d : wire d !! "title" = Some (get d "title").
Proof. wire_lookup. Qed.
Lemma wire_notes d : wire d !! "notes" = Some (get d "notes").
Proof. wire_lookup. Qed.
Lemma wire_priority d :
  wire d !! "priority" = Some (get_or d "priority" (VStr "normal")).
Proof. wire_lookup. Qed.
Lemma wire_due_date d : wire d !! "due_date" = Some (wire_timestamp d "due_date").
Proof. wire_lookup. Qed.
Lemma wire_completed d :
  wire d !! "completed"
  = Some (VBool (truthy (get_or d "completed" (VBool false)))).
Proof. wire_lookup. Qed.
Lemma wire_created_at d :
  wire d !! "created_at" = Some (wire_timestamp d "created_at").
Proof. wire_lookup. Qed.
Lemma wire_updated_at d :
  wire d !! "updated_at" = Some (wire_timestamp d "updated_at").
Proof. wire_lookup. Qed.

(** C4. Serialization never raises on a persisted record (non-empty: it
    carries its [_id]) whose timestamp fields are, as in the data model,
    absent, null or timestamps, whatever other fields are missing. The
    result is determined by the record: [priority] is the stored value, or
    "normal" when the key is absent; [completed] is the truth value of the
    stored one, [false] when absent; each of [due_date], [created_at] and
    [updated_at] is the ISO-8601 string of the stored timestamp and null
    when absent. An absent record passes through as absent. *)
Theorem serialize_task_total (d : dict) :
  d ≠ ∅ ->
  timestamp_ok d "due_date" ->
  timestamp_ok d "created_at" ->
  timestamp_ok d "updated_at" ->
  exists w : dict,
    serialize_task (Some d) = Ok (Some w) /\
    w !! "priority" = Some (default (VStr "normal") (d !! "priority")) /\
    w !! "completed" = Some (VBool (from_option truthy false (d !! "completed"))) /\
    (forall k, k ∈ ["due_date"; "created_at"; "updated_at"] ->
       w !! k = Some (match d !! k with
                      | Some (VDate t) => VStr (isoformat t)
                      | _ => VNone
                      end)) /\
    w !! "id" = Some (VStr (str (default VNone (d !! "_id")))) /\
    w !! "title" = Some (default VNone (d !! "title")) /\
    w !! "notes" = Some (default VNone (d !! "notes")) /\
    serialize_task None = Ok None.
Proof.
  intros Hne Hd Hc Hu. exists (wire d).
  split; [by apply serialize_task_wire|].
  split; [apply wire_priority|].
  split; [rewrite wire_completed; unfold get_or; by destruct (d !! "completed")|].
  split; [|by rewrite wire_id, wire_title, wire_notes].
  intros k Hk. rewrite !elem_of_cons in Hk.
  destruct Hk as [-> | [-> | [-> | Hk]]];
    [apply wire_due_date | apply wire_created_at | apply wire_updated_at
    | by apply elem_of_nil in Hk].
Qed.

Lemma serialize_task_total_witness :
  exists w : dict,
    serialize_task (Some {["_id" := VOid 256%N]}) = Ok (Some w) /\
    w !! "priority" = Some (VStr "normal") /\
    w !! "completed" = Some (VBool false) /\
    w !! "due_date" = Some VNone /\
    w !! "created_at" = Some VNone /\
    w !! "updated_at" = Some VNone.
Proof.
  destruct (serialize_task_total {["_id" := VOid 256%N]})
    as (w & Hs & Hp & Hc & Ht & _); [done | exact I | exact I | exact I |].
  exists w. split; [exact Hs|]. split; [exact Hp|]. split; [exact Hc|].
  split; [|split].
  - apply (Ht "due_date"). rewrite !elem_of_cons. auto.
  - apply (Ht "created_at"). rewrite !elem_of_cons. auto.
  - apply (Ht "updated_at"). rewrite !elem_of_cons. auto.
Defined.

(** ** Store operations on the documents *)

Lemma has_id_union o (upd d : dict) :
  upd !! "_id" = None -> has_id o (upd ∪ d) = has_id o d.
Proof.
  intros Hu. unfold has_id. by rewrite lookup_union_r.
Qed.

Lemma has_id_other o o' (d : dict) :
  has_id o d = true -> o' ≠ o -> has_id o' d = false.
Proof.
  unfold has_id. intros H%bool_decide_eq_true Hne.
  apply bool_decide_eq_false. rewrite H. congruence.
Qed.

Lemma set_first_not_found o upd c :
  lookup_id o c = None -> set_first o upd c = (O, c).
Proof.
  induction c as [|x r IH]; simpl; [done|].
  destruct (has_id o x); [done|]. intros H. by rewrite (IH H).
Qed.

Lemma set_first_found o upd c d :
  upd !! "_id" = None ->
  lookup_id o c = Some d ->
  exists c',
    set_first o upd c = (1%nat, c') /\
    lookup_id o c' = Some (upd ∪ d) /\
    (forall o', o' ≠ o -> lookup_id o' c' = lookup_id o' c) /\
    length c' = length c.
Proof.
  intros Hu. induction c as [|x r IH]; simpl; [done|].
  destruct (has_id o x) eqn:E.
  - intros [= ->]. exists ((upd ∪ d) :: r). simpl.
    rewrite has_id_union, E by done.
    split; [done|]. split; [done|]. split; [|done].
    intros o' Hne. rewrite has_id_union by done.
    by rewrite (has_id_other o o' d E Hne).
  - intros H. destruct (IH H) as (c' & Hs & Hl & Ho & Hlen).
    exists (x :: c'). rewrite Hs. simpl. rewrite E.
    split; [done|]. split; [done|]. split; [|by rewrite Hlen].
    intros o' Hne. simpl. destruct (has_id o' x); [done | by apply Ho].
Qed.

(** ** Partial update *)

Lemma lookup_dump_ne {T} k k' (inj : T -> value) f (m : dict) :
  k ≠ k' -> TaskUpdate.dump k inj f m !! k' = m !! k'.
Proof.
  intros Hne. destruct f as [|[v|]]; simpl; [done| |];
    by rewrite lookup_insert_ne.
Qed.

Lemma lookup_dump_eq {T} k (inj : T -> value) f (m : dict) :
  TaskUpdate.dump k inj f m !! k = applied inj f (m !! k).
Proof.
  destruct f as [|[v|]]; simpl; [done| |]; by rewrite lookup_insert_eq.
Qed.

Ltac dump_lookup :=
  unfold TaskUpdate.model_dump_exclude_unset;
  repeat first [ rewrite lookup_dump_eq | rewrite lookup_dump_ne by done ];
  rewrite ?lookup_empty.

Lemma model_dump_title p :
  TaskUpdate.model_dump_exclude_unset p !! "title"
  = applied VStr (TaskUpdate.title p) None.
Proof. by dump_lookup. Qed.
Lemma model_dump_notes p :
  TaskUpdate.model_dump_exclude_unset p !! "notes"
  = applied VStr (TaskUpdate.notes p) None.
Proof. by dump_lookup. Qed.
Lemma model_dump_priority p :
  TaskUpdate.model_dump_exclude_unset p !! "priority"
  = applied VStr (TaskUpdate.priority p) None.
Proof. by dump_lookup. Qed.
Lemma model_dump_due_date p :
  TaskUpdate.model_dump_exclude_unset p !! "due_date"
  = applied VDate (TaskUpdate.due_date p) None.
Proof. by dump_lookup. Qed.
Lemma model_dump_completed p :
  TaskUpdate.model_dump_exclude_unset p !! "completed"
  = applied VBool (TaskUpdate.completed p) None.
Proof. by dump_lookup. Qed.

Lemma model_dump_other p k :
  k ∉ update_fields -> TaskUpdate.model_dump_exclude_unset p !! k = None.
Proof.
  unfold update_fields. rewrite !not_elem_of_cons. intros (?&?&?&?&?&_).
  unfold TaskUpdate.model_dump_exclude_unset.
  rewrite !lookup_dump_ne by done. apply lookup_empty.
Qed.

Lemma updates_of_id p now : updates_of p now !! "_id" = None.
Proof.
  unfold updates_of. rewrite lookup_insert_ne by done.
  apply model_dump_other. unfold update_fields. rewrite !not_elem_of_cons.
  repeat split; try done. apply not_elem_of_nil.
Qed.

Lemma applied_union {T} (inj : T -> value) f (new old : option value) :
  new = applied inj f None ->
  union_with (fun x _ => Some x) new old = applied inj f old.
Proof. intros ->. destruct f as [|[v|]]; simpl; by destruct old. Qed.

(** Running an update whose payload sets some field, on a stored record. *)
Lemma update_task_run w c task_id o d p now :
  db w = Some c ->
  ObjectId task_id = Some o ->
  lookup_id o c = Some d ->
  TaskUpdate.model_dump_exclude_unset p ≠ ∅ ->
  exists c',
    set_first o (updates_of p now) c = (1%nat, c') /\
    update_task task_id p now w
    = (serialize_task (Some (updates_of p now ∪ d)),
       mk_world (Some c')
         (FindOne o :: UpdateOne o (updates_of p now) :: calls w)).
Proof.
  intros Hdb Hid Hd Hne.
  destruct (set_first_found o (updates_of p now) c d (updates_of_id p now) Hd)
    as (c' & Hs & Hl & _).
  exists c'. split; [done|].
  unfold update_task. unfold_monad. rewrite Hdb, Hid.
  rewrite bool_decide_eq_false_2 by done. simpl.
  fold (updates_of p now). rewrite Hdb, Hs. simpl. by rewrite Hl.
Qed.

Lemma updates_of_lookup p now k :
  k ≠ "updated_at" ->
  updates_of p now !! k = TaskUpdate.model_dump_exclude_unset p !! k.
Proof. intros Hk. unfold updates_of. by rewrite lookup_insert_ne. Qed.

Lemma updated_field {T} (inj : T -> value) f p now k (d : dict) :
  k ≠ "updated_at" ->
  TaskUpdate.model_dump_exclude_unset p !! k = applied inj f None ->
  (updates_of p now ∪ d) !! k = applied inj f (d !! k).
Proof.
  intros Hk Hp. rewrite lookup_union, updates_of_lookup by done.
  by apply applied_union.
Qed.

Lemma updated_other p now k (d : dict) :
  k ≠ "updated_at" -> k ∉ update_fields ->
  (updates_of p now ∪ d) !! k = d !! k.
Proof.
  intros Hk Hf. rewrite lookup_union_r; [done|].
  rewrite updates_of_lookup by done. by apply model_dump_other.
Qed.

Lemma updated_updated_at p now (d : dict) :
  (updates_of p now ∪ d) !! "updated_at" = Some (VDate now).
Proof.
  apply lookup_union_Some_l. unfold updates_of. apply lookup_insert_eq.
Qed.

(** What validation makes of the notes of a body it accepts. *)
Lemma validate_notes_field b p :
  TaskUpdate.validate b = inr p ->
  (TaskUpdate.b_notes b = Omitted -> TaskUpdate.notes p = unset) /\
  (TaskUpdate.b_notes b = Null -> TaskUpdate.notes p = set None).
Proof.
  unfold TaskUpdate.validate. intros H.
  destruct (optional_str 1 _ (TaskUpdate.b_title b)); [done|].
  destruct (optional_str 0 (Some _) (TaskUpdate.b_notes b)) eqn:En; [done|].
  destruct (optional_str 0 None _); [done|].
  destruct (optional_any (TaskUpdate.b_due_date b)); [done|].
  destruct (optional_any (TaskUpdate.b_completed b)); [done|].
  injection H as <-. simpl.
  split; intros Hb; rewrite Hb in En; simpl in En; congruence.
Qed.

(** C1. A PATCH that passes validation and supplies some field, on a
    stored task [d], changes in the store only that task, and in it only
    the supplied fields and [updated_at]: each of the five updatable fields
    is the supplied value (null for an explicit null) when set and the old
    stored value when unset, [updated_at] is the clock reading, and every
    other key of the record is as before. In particular notes omitted from
    the body stay as stored, and an explicit null for notes stores null. *)
Theorem update_changes_only_supplied (w : world) (c : list dict)
    (task_id : string) (o : oid) (d : dict) (b : TaskUpdate.body)
    (p : TaskUpdate.t) (now : datetime) :
  db w = Some c ->
  ObjectId task_id = Some o ->
  lookup_id o c = Some d ->
  TaskUpdate.validate b = inr p ->
  p ≠ TaskUpdate.mk unset unset unset unset unset ->
  exists (c' : list dict) (d' : dict),
    db (snd (patch_task task_id b now w)) = Some c' /\
    lookup_id o c' = Some d' /\
    d' !! "title" = applied VStr (TaskUpdate.title p) (d !! "title") /\
    d' !! "notes" = applied VStr (TaskUpdate.notes p) (d !! "notes") /\
    d' !! "priority" = applied VStr (TaskUpdate.priority p) (d !! "priority") /\
    d' !! "due_date" = applied VDate (TaskUpdate.due_date p) (d !! "due_date") /\
    d' !! "completed" = applied VBool (TaskUpdate.completed p) (d !! "completed") /\
    d' !! "updated_at" = Some (VDate now) /\
    (forall k, k ∉ "updated_at" :: update_fields -> d' !! k = d !! k) /\
    (forall o', o' ≠ o -> lookup_id o' c' = lookup_id o' c) /\
    length c' = length c /\
    (TaskUpdate.b_notes b = Omitted -> d' !! "notes" = d !! "notes") /\
    (TaskUpdate.b_notes b = Null -> d' !! "notes" = Some VNone).
Proof.
  intros Hdb Hid Hd Hv Hp.
  assert (TaskUpdate.model_dump_exclude_unset p ≠ ∅) as Hne.
  { intros He. by apply model_dump_empty_iff in He. }
  destruct (set_first_found o (updates_of p now) c d (updates_of_id p now) Hd)
    as (c' & Hs & Hl & Ho & Hlen).
  destruct (update_task_run w c task_id o d p now Hdb Hid Hd Hne)
    as (c'' & Hs' & Hrun).
  rewrite Hs in Hs'. injection Hs' as <-.
  exists c', (updates_of p now ∪ d).
  unfold patch_task. rewrite Hv, Hrun. simpl.
  split; [done|]. split; [done|].
  split; [apply updated_field; [done | apply model_dump_title]|].
  assert ((updates_of p now ∪ d) !! "notes"
          = applied VStr (TaskUpdate.notes p) (d !! "notes")) as Hnotes.
  { apply updated_field; [done | apply model_dump_notes]. }
  split; [exact Hnotes|].
  split; [apply updated_field; [done | apply model_dump_priority]|].
  split; [apply updated_field; [done | apply model_dump_due_date]|].
  split; [apply updated_field; [done | apply model_dump_completed]|].
  split; [apply updated_updated_at|].
  split.
  { intros k Hk. apply not_elem_of_cons in Hk as [Hk1 Hk2].
    by apply updated_other. }
  split; [exact Ho|]. split; [exact Hlen|].
  destruct (validate_notes_field b p Hv) as [Hom Hnull].
  split; intros Hb; rewrite Hnotes.
  - by rewrite (Hom Hb).
  - by rewrite (Hnull Hb).
Qed.

Lemma update_changes_only_supplied_witness :
  let d : dict := {["_id" := VOid 256%N; "title" := VStr "old";
                    "notes" := VStr "keep"]} in
  let w := mk_world (Some [d]) [] in
  let b := TaskUpdate.mk_body (Given "new") Omitted Omitted Omitted Omitted in
  exists (c' : list dict) (d' : dict),
    db (snd (patch_task "000000000000000000000100" b
               (mk_datetime 2024 1 2 3 4 5 0) w)) = Some c' /\
    lookup_id 256%N c' = Some d' /\
    d' !! "title" = Some (VStr "new") /\
    d' !! "notes" = Some (VStr "keep").
Proof.
  intros d w b.
  destruct (update_changes_only_supplied w [d] "000000000000000000000100"
              256%N d b
              (TaskUpdate.mk (set (Some "new")) unset unset unset unset)
              (mk_datetime 2024 1 2 3 4 5 0))
    as (c' & d' & Hc & Hl & Ht & Hn & _);
    [reflexivity | reflexivity | reflexivity | reflexivity | discriminate |].
  exists c', d'. split; [exact Hc|]. split; [exact Hl|].
  split; [exact Ht | exact Hn].
Defined.

(** ** Toggle *)

Lemma toggle_updates_id d now : toggle_updates d now !! "_id" = None.
Proof. unfold toggle_updates. simpl. by rewrite !lookup_insert_ne. Qed.

Lemma toggled_completed d now :
  (toggle_updates d now ∪ d) !! "completed" = Some (VBool (negb (completed_of d))).
Proof.
  apply lookup_union_Some_l. unfold toggle_updates. simpl.
  apply lookup_insert_eq.
Qed.

Lemma toggled_updated_at d now :
  (toggle_updates d now ∪ d) !! "updated_at" = Some (VDate now).
Proof.
  apply lookup_union_Some_l. unfold toggle_updates. simpl.
  rewrite lookup_insert_ne by done. apply lookup_insert_eq.
Qed.

Lemma toggled_other d now k :
  k ≠ "completed" -> k ≠ "updated_at" ->
  (toggle_updates d now ∪ d) !! k = d !! k.
Proof.
  intros H1 H2. apply lookup_union_r. unfold toggle_updates. simpl.
  by rewrite !lookup_insert_ne.
Qed.

Lemma completed_of_toggled d now :
  completed_of (toggle_updates d now ∪ d) = negb (completed_of d).
Proof.
  unfold completed_of at 1. unfold get_or. by rewrite toggled_completed.
Qed.

Lemma toggle_task_run w c task_id o d now :
  db w = Some c ->
  ObjectId task_id = Some o ->
  lookup_id o c = Some d ->
  exists c',
    set_first o (toggle_updates d now) c = (1%nat, c') /\
    lookup_id o c' = Some (toggle_updates d now ∪ d) /\
    toggle_task task_id now w
    = (serialize_task (Some (toggle_updates d now ∪ d)),
       mk_world (Some c')
         (FindOne o :: UpdateOne o (toggle_updates d now) :: FindOne o
          :: calls w)).
Proof.
  intros Hdb Hid Hd.
  destruct (set_first_found o (toggle_updates d now) c d
              (toggle_updates_id d now) Hd) as (c' & Hs & Hl & _).
  exists c'. split; [done|]. split; [done|].
  unfold toggle_task.
  rewrite (bind_ok _ _ _ _ _ (run_read_db w)), Hdb, Hid.
  rewrite (bind_ok _ _ _ _ _ (run_find_one o w c Hdb)), Hd.
  rewrite bool_decide_eq_false_2
    by (eapply has_id_nonempty, lookup_id_has_id; eauto).
  fold (completed_of d). fold (toggle_updates d now).
  erewrite bind_ok by (by apply run_update_one).
  erewrite bind_ok by (by apply run_find_one).
  rewrite Hs. simpl. by rewrite Hl.
Qed.

Lemma toggle_task_not_found w c task_id o now :
  db w = Some c ->
  ObjectId task_id = Some o ->
  lookup_id o c = None ->
  toggle_task task_id now w
  = (Raise (HTTPException 404 "Task not found"),
     mk_world (Some c) (FindOne o :: calls w)).
Proof.
  intros Hdb Hid Hd. unfold toggle_task.
  rewrite (bind_ok _ _ _ _ _ (run_read_db w)), Hdb, Hid.
  by rewrite (bind_ok _ _ _ _ _ (run_find_one o w c Hdb)), Hd.
Qed.

(** C3. On a configured store and for a well-formed id: with no matching
    record, toggle raises the 404 "Task not found" error after its one
    read and writes nothing; with a stored task whose [completed] has truth
    value [cv], toggle issues exactly one update, which sets [completed] to
    [not cv] together with [updated_at] to the clock reading, so a second
    toggle stores [completed = cv] again: a stored boolean is back at its
    original value, and every field other than [completed] and
    [updated_at] is untouched throughout. *)
Theorem toggle_twice_restores_completed (w : world) (c : list dict)
    (task_id : string) (o : oid) :
  db w = Some c ->
  ObjectId task_id = Some o ->
  (lookup_id o c = None ->
   forall now,
     toggle_task task_id now w
     = (Raise (HTTPException 404 "Task not found"),
        mk_world (Some c) (FindOne o :: calls w))) /\
  (forall d now1 now2,
     lookup_id o c = Some d ->
     let cv := truthy (default (VBool false) (d !! "completed")) in
     let w1 := snd (toggle_task task_id now1 w) in
     let w2 := snd (toggle_task task_id now2 w1) in
     exists (c1 c2 : list dict) (d1 d2 : dict),
       db w1 = Some c1 /\ lookup_id o c1 = Some d1 /\
       d1 !! "completed" = Some (VBool (negb cv)) /\
       d1 !! "updated_at" = Some (VDate now1) /\
       calls w1
       = FindOne o
         :: UpdateOne o {["completed" := VBool (negb cv);
                          "updated_at" := VDate now1]}
         :: FindOne o :: calls w /\
       db w2 = Some c2 /\ lookup_id o c2 = Some d2 /\
       d2 !! "completed" = Some (VBool cv) /\
       d2 !! "updated_at" = Some (VDate now2) /\
       (forall v, d !! "completed" = Some (VBool v) ->
                  d2 !! "completed" = d !! "completed") /\
       (forall k, k ≠ "completed" -> k ≠ "updated_at" -> d2 !! k = d !! k)).
Proof.
  intros Hdb Hid. split.
  - intros Hd now. by apply toggle_task_not_found.
  - intros d now1 now2 Hd cv w1 w2.
    destruct (toggle_task_run w c task_id o d now1 Hdb Hid Hd)
      as (c1 & _ & Hl1 & Hrun1).
    set (d1 := toggle_updates d now1 ∪ d) in *.
    assert (db w1 = Some c1) as Hdb1 by (unfold w1; by rewrite Hrun1).
    destruct (toggle_task_run w1 c1 task_id o d1 now2 Hdb1 Hid Hl1)
      as (c2 & _ & Hl2 & Hrun2).
    set (d2 := toggle_updates d1 now2 ∪ d1) in *.
    exists c1, c2, d1, d2.
    split; [done|]. split; [done|].
    split; [apply toggled_completed|].
    split; [apply toggled_updated_at|].
    split; [unfold w1; by rewrite Hrun1|].
    split; [unfold w2; by rewrite Hrun2|]. split; [done|].
    assert (d2 !! "completed" = Some (VBool cv)) as Hc2.
    { unfold d2. rewrite toggled_completed. unfold d1.
      rewrite completed_of_toggled. by rewrite negb_involutive. }
    split; [exact Hc2|].
    split; [apply toggled_updated_at|].
    split.
    + intros v Hv. rewrite Hc2. unfold cv. by rewrite Hv.
    + intros k H1 H2. unfold d2, d1. by rewrite !toggled_other.
Qed.

Lemma toggle_twice_restores_completed_witness :
  let d : dict := {["_id" := VOid 256%N; "completed" := VBool true]} in
  let w := mk_world (Some [d]) [] in
  let w1 := snd (toggle_task "000000000000000000000100"
                   (mk_datetime 2024 1 2 3 4 5 0) w) in
  let w2 := snd (toggle_task "000000000000000000000100"
                   (mk_datetime 2024 1 2 3 4 6 0) w1) in
  exists (c1 c2 : list dict) (d1 d2 : dict),
    db w1 = Some c1 /\ lookup_id 256%N c1 = Some d1 /\
    d1 !! "completed" = Some (VBool false) /\
    db w2 = Some c2 /\ lookup_id 256%N c2 = Some d2 /\
    d2 !! "completed" = Some (VBool true).
Proof.
  intros d w w1 w2.
  destruct (toggle_twice_restores_completed w [d] "000000000000000000000100"
              256%N eq_refl eq_refl) as [_ H].
  destruct (H d (mk_datetime 2024 1 2 3 4 5 0) (mk_datetime 2024 1 2 3 4 6 0)
              eq_refl)
    as (c1 & c2 & d1 & d2 & H1 & H2 & H3 & _ & _ & H4 & H5 & H6 & _).
  exists c1, c2, d1, d2. repeat split; assumption.
Defined.

(** ** Well-formed timestamps are kept by updates *)

Lemma timestamp_ok_insert_date (d : dict) k k' t :
  timestamp_ok d k -> timestamp_ok (<[k' := VDate t]> d) k.
Proof.
  unfold timestamp_ok. destruct (decide (k' = k)) as [->|Hne].
  - by rewrite lookup_insert_eq.
  - by rewrite lookup_insert_ne.
Qed.

Lemma timestamp_ok_applied_date (f : field datetime) (old : option value) :
  match old with None | Some VNone | Some (VDate _) => True | _ => False end ->
  match applied VDate f old with
  | None | Some VNone | Some (VDate _) => True
  | _ => False
  end.
Proof. by destruct f as [|[t|]]. Qed.

Lemma update_timestamps_ok p now (d : dict) :
  timestamp_ok d "due_date" -> timestamp_ok d "created_at" ->
  timestamps_ok (updates_of p now ∪ d).
Proof.
  intros Hd Hc. unfold timestamps_ok, timestamp_ok.
  rewrite (updated_field VDate (TaskUpdate.due_date p))
    by (done || apply model_dump_due_date).
  rewrite updated_updated_at.
  rewrite updated_other.
  - split; [by apply timestamp_ok_applied_date | done].
  - done.
  - unfold update_fields. rewrite !not_elem_of_cons.
    repeat split; try done. apply not_elem_of_nil.
Qed.

Lemma updated_nonempty p now (d : dict) : updates_of p now ∪ d ≠ ∅.
Proof.
  intros H. pose proof (updated_updated_at p now d) as Hu.
  rewrite H in Hu. by rewrite lookup_empty in Hu.
Qed.

(** ** Explicit nulls *)

Lemma validate_title_null b :
  TaskUpdate.b_title b = Null ->
  (forall errors v, TaskUpdate.validate b = inl errors -> ("title", v) ∉ errors) /\
  (forall p, TaskUpdate.validate b = inr p -> TaskUpdate.title p = set None).
Proof.
  intros Hb. unfold TaskUpdate.validate. rewrite Hb. simpl.
  destruct (optional_str 0 (Some _) _), (optional_str 0 None _),
    (optional_any (TaskUpdate.b_due_date b)),
    (optional_any (TaskUpdate.b_completed b)); simpl; split;
    try (intros p [= <-]; reflexivity); try (intros p [=]);
    intros errors v' [= <-]; rewrite ?not_elem_of_cons;
    repeat split; try discriminate; apply not_elem_of_nil.
Qed.

Lemma create_validate_title_null b :
  TaskCreate.b_title b = Null ->
  exists errors,
    TaskCreate.validate b = inl errors /\ ("title", StringType) ∈ errors.
Proof.
  intros Hb. unfold TaskCreate.validate. rewrite Hb. simpl.
  eexists; split; [reflexivity|]. simpl. apply elem_of_cons. by left.
Qed.

(** C7. A PATCH body whose title is an explicit null is never refused on
    account of the title (the length bounds bind strings only), and the
    body with every field null is accepted. When such a body is accepted,
    on a stored task with well-formed timestamps, null is written as the
    stored title and the returned task has title null. A create body with
    a null title, by contrast, fails validation on the title. *)
Theorem update_accepts_null_title (w : world) (c : list dict)
    (task_id : string) (o : oid) (d : dict) (now : datetime) :
  db w = Some c ->
  ObjectId task_id = Some o ->
  lookup_id o c = Some d ->
  timestamp_ok d "due_date" ->
  timestamp_ok d "created_at" ->
  (forall b errors v,
     TaskUpdate.b_title b = Null ->
     TaskUpdate.validate b = inl errors -> ("title", v) ∉ errors) /\
  TaskUpdate.validate (TaskUpdate.mk_body Null Null Null Null Null)
  = inr (TaskUpdate.mk (set None) (set None) (set None) (set None) (set None)) /\
  (forall b p,
     TaskUpdate.b_title b = Null ->
     TaskUpdate.validate b = inr p ->
     exists (c' : list dict) (d' r : dict),
       patch_task task_id b now w
       = (Ok (Some r),
          mk_world (Some c')
            (FindOne o :: UpdateOne o (updates_of p now) :: calls w)) /\
       updates_of p now !! "title" = Some VNone /\
       lookup_id o c' = Some d' /\
       d' !! "title" = Some VNone /\
       r !! "title" = Some VNone) /\
  (forall b, TaskCreate.b_title b = Null ->
     exists errors,
       TaskCreate.validate b = inl errors /\ ("title", StringType) ∈ errors).
Proof.
  intros Hdb Hid Hd Hdue Hcr.
  split; [intros b errors v Hb; by apply validate_title_null|].
  split; [reflexivity|].
  split; [|intros b Hb; by apply create_validate_title_null].
  intros b p Hb Hv.
  pose proof (proj2 (validate_title_null b Hb) p Hv) as Ht.
  assert (TaskUpdate.model_dump_exclude_unset p ≠ ∅) as Hne.
  { intros He. apply model_dump_empty_iff in He. by rewrite He in Ht. }
  destruct (set_first_found o (updates_of p now) c d (updates_of_id p now) Hd)
    as (c' & Hs & Hl & _).
  destruct (update_task_run w c task_id o d p now Hdb Hid Hd Hne)
    as (c'' & Hs' & Hrun).
  rewrite Hs in Hs'. injection Hs' as <-.
  assert ((updates_of p now ∪ d) !! "title" = Some VNone) as Htitle.
  { rewrite (updated_field VStr (TaskUpdate.title p))
      by (done || apply model_dump_title). by rewrite Ht. }
  exists c', (updates_of p now ∪ d), (wire (updates_of p now ∪ d)).
  split.
  { unfold patch_task. rewrite Hv, Hrun.
    rewrite serialize_task_wire;
      [done | apply updated_nonempty | by apply update_timestamps_ok]. }
  split.
  { rewrite updates_of_lookup, model_dump_title by done. by rewrite Ht. }
  split; [done|]. split; [done|].
  rewrite wire_title. unfold get. by rewrite Htitle.
Qed.

Lemma update_accepts_null_title_witness :
  let d : dict := {["_id" := VOid 256%N; "title" := VStr "old"]} in
  let w := mk_world (Some [d]) [] in
  let b := TaskUpdate.mk_body Null Omitted Omitted Omitted Omitted in
  exists (c' : list dict) (d' r : dict),
    fst (patch_task "000000000000000000000100" b
           (mk_datetime 2024 1 2 3 4 5 0) w) = Ok (Some r) /\
    db (snd (patch_task "000000000000000000000100" b
               (mk_datetime 2024 1 2 3 4 5 0) w)) = Some c' /\
    lookup_id 256%N c' = Some d' /\
    d' !! "title" = Some VNone /\
    r !! "title" = Some VNone.
Proof.
  intros d w b.
  destruct (update_accepts_null_title w [d] "000000000000000000000100" 256%N d
              (mk_datetime 2024 1 2 3 4 5 0) eq_refl eq_refl eq_refl I I)
    as (_ & _ & H & _).
  destruct (H b (TaskUpdate.mk (set None) unset unset unset unset)
              eq_refl eq_refl)
    as (c' & d' & r & Hrun & _ & Hl & Hd & Hr).
  exists c', d', r. rewrite Hrun. repeat split; assumption.
Defined.

(** ** Identifiers print and parse back *)

Lemma hex_value_digit_char d :
  (d < 16)%N -> hex_value (digit_char d) = Some d.
Proof.
  intros H. destruct d as [|p]; [reflexivity|].
  do 4 (try destruct p as [p|p|]); try reflexivity; lia.
Qed.

Lemma length_digits b n x acc :
  String.length (digits b n x acc) = (n + String.length acc)%nat.
Proof.
  revert x acc. induction n as [|n IH]; intros x acc; simpl; [done|].
  rewrite IH. simpl. lia.
Qed.

Lemma is_space_digit_char d : (d < 16)%N -> is_space (digit_char d) = false.
Proof.
  intros H. destruct d as [|p]; [reflexivity|].
  do 4 (try destruct p as [p|p|]); try reflexivity; lia.
Qed.

Lemma length_low_bytes k x : length (low_bytes k x) = k.
Proof.
  revert x. induction k as [|k IH]; intros x; simpl; [done|].
  rewrite length_app, IH. simpl. lia.
Qed.

Lemma bytes_value_snoc bs b :
  bytes_value (bs ++ [b]) = (256 * bytes_value bs + b)%N.
Proof. unfold bytes_value. by rewrite fold_left_app. Qed.

Lemma bytes_value_low_bytes k x :
  bytes_value (low_bytes k x) = (x mod 256 ^ N.of_nat k)%N.
Proof.
  revert x. induction k as [|k IH]; intros x.
  - simpl. by rewrite N.mod_1_r.
  - cbn [low_bytes]. rewrite bytes_value_snoc, IH.
    rewrite Nnat.Nat2N.inj_succ, N.pow_succ_r'.
    rewrite (N.Div0.mod_mul_r x 256). lia.
Qed.

Lemma fromhex_digits k x acc bs :
  fromhex acc = Some bs ->
  fromhex (digits 16 (2 * k) x acc) = Some (low_bytes k x ++ bs).
Proof.
  revert x acc bs. induction k as [|k IH]; intros x acc bs Hacc; [done|].
  replace (2 * S k)%nat with (S (S (2 * k))) by lia. cbn [digits low_bytes].
  rewrite <- app_assoc. simpl app.
  replace (x / 16 / 16)%N with (x / 256)%N
    by (rewrite N.Div0.div_div; reflexivity).
  apply IH. cbn [fromhex].
  rewrite is_space_digit_char by (apply N.mod_lt; lia).
  rewrite !hex_value_digit_char by (apply N.mod_lt; lia).
  rewrite Hacc. simpl. do 2 f_equal.
  replace 256%N with (16 * 16)%N by reflexivity.
  rewrite (N.Div0.mod_mul_r x 16 16). lia.
Qed.

Lemma oid_str_twelve o : (o < 2 ^ 96)%N -> oid_str o = digits 16 24 o "".
Proof.
  intros Ho. unfold oid_str, oid_length.
  rewrite (N.div_small o), (N.mod_small o) by done. reflexivity.
Qed.

Lemma ObjectId_oid_str o : (o < 2 ^ 96)%N -> ObjectId (oid_str o) = Some o.
Proof.
  intros Ho. rewrite (oid_str_twelve o Ho). unfold ObjectId.
  rewrite length_digits. simpl Nat.eqb. cbv iota.
  change 24%nat with (2 * 12)%nat.
  rewrite (fromhex_digits 12 o "" [] eq_refl), app_nil_r. cbn [option_map].
  f_equal. unfold oid_of_bytes.
  rewrite length_low_bytes, bytes_value_low_bytes.
  replace (256 ^ N.of_nat 12)%N with (2 ^ 96)%N by reflexivity.
  rewrite (N.mod_small o) by done.
  replace (12 - N.of_nat 12)%N with 0%N by reflexivity. lia.
Qed.

(** ** Create *)

Ltac created_lookup :=
  unfold created_doc, create_data; simpl;
  rewrite ?lookup_insert_ne by done;
  first [ apply lookup_insert_eq | apply lookup_empty ].

Lemma create_data_created_at p : create_data p !! "created_at" = None.
Proof. unfold create_data. simpl. rewrite !lookup_insert_ne by done. done. Qed.

Lemma created_id p now o : created_doc p now o !! "_id" = Some (VOid o).
Proof. created_lookup. Qed.
Lemma created_created_at p now o :
  created_doc p now o !! "created_at" = Some (VDate now).
Proof. created_lookup. Qed.
Lemma created_updated_at p now o : created_doc p now o !! "updated_at" = None.
Proof. created_lookup. Qed.
Lemma created_completed p now o :
  created_doc p now o !! "completed" = Some (VBool false).
Proof. created_lookup. Qed.
Lemma created_title p now o :
  created_doc p now o !! "title" = Some (VStr (TaskCreate.title p)).
Proof. created_lookup. Qed.
Lemma created_notes p now o :
  created_doc p now o !! "notes"
  = Some (from_option VStr VNone (TaskCreate.notes p)).
Proof. created_lookup. Qed.
Lemma created_priority p now o :
  created_doc p now o !! "priority" = Some (VStr (TaskCreate.priority p)).
Proof. created_lookup. Qed.
Lemma created_due_date p now o :
  created_doc p now o !! "due_date"
  = Some (from_option VDate VNone (TaskCreate.due_date p)).
Proof. created_lookup. Qed.

Lemma created_nonempty p now o : created_doc p now o ≠ ∅.
Proof. unfold created_doc. apply insert_non_empty. Qed.

Lemma created_timestamps_ok p now o : timestamps_ok (created_doc p now o).
Proof.
  unfold timestamps_ok, timestamp_ok.
  rewrite created_due_date, created_created_at, created_updated_at.
  by destruct (TaskCreate.due_date p).
Qed.

Lemma has_id_created p now o : has_id o (created_doc p now o) = true.
Proof. unfold has_id. apply bool_decide_eq_true. apply created_id. Qed.

Lemma lookup_id_app_new o c d :
  lookup_id o c = None -> has_id o d = true -> lookup_id o (c ++ [d]) = Some d.
Proof.
  intros Hc Hd. induction c as [|x r IH]; simpl in *.
  - by rewrite Hd.
  - destruct (has_id o x); [done | by apply IH].
Qed.

Lemma lookup_id_app_old o c d :
  has_id o d = false -> lookup_id o (c ++ [d]) = lookup_id o c.
Proof.
  intros Hd. induction c as [|x r IH]; simpl.
  - by rewrite Hd.
  - by rewrite IH.
Qed.

(** Running a create, the store assigning a fresh id. *)
Lemma create_task_run w c p now new_id :
  db w = Some c ->
  lookup_id new_id c = None ->
  (new_id < 2 ^ 96)%N ->
  create_task p now new_id w
  = (Ok (Some (wire (created_doc p now new_id))),
     mk_world (Some (c ++ [created_doc p now new_id]))
       (FindOne new_id :: InsertOne (created_doc p now new_id) :: calls w)).
Proof.
  intros Hdb Hfresh Hid. unfold create_task.
  rewrite (bind_ok _ _ _ _ _ (run_read_db w)), Hdb.
  fold (create_data p). unfold create_document.
  rewrite create_data_created_at. fold (created_doc p now new_id).
  erewrite (bind_ok (bind _ _)); cycle 1.
  { erewrite bind_ok by (by apply run_insert_one). reflexivity. }
  rewrite (ObjectId_oid_str _ Hid).
  erewrite bind_ok by (by apply run_find_one).
  rewrite (lookup_id_app_new _ _ _ Hfresh (has_id_created p now new_id)).
  unfold lift.
  by rewrite (serialize_task_wire _ (created_nonempty _ _ _)
                (created_timestamps_ok _ _ _)).
Qed.

(** What validation makes of a create body does not depend on a
    [completed] key of the body. *)
Lemma create_validate_ignores_completed t n pr du co co' :
  TaskCreate.validate (TaskCreate.mk_body t n pr du co)
  = TaskCreate.validate (TaskCreate.mk_body t n pr du co').
Proof. reflexivity. Qed.

(** C6. A create request whose body passes validation, on a configured
    store that assigns a fresh id, persists exactly one new record, after
    the existing ones: it holds the payload's fields, [completed = false]
    whatever [completed] key the body carried, [created_at] = the clock
    reading and no [updated_at]. The response is 201 with the serialized
    re-read record: [completed] false, [created_at] the ISO-8601 string,
    [updated_at] null, [id] the string of the new id. *)
Theorem create_persists_one_record (w : world) (c : list dict)
    (b : TaskCreate.body) (p : TaskCreate.t) (now : datetime) (new_id : oid) :
  db w = Some c ->
  TaskCreate.validate b = inr p ->
  lookup_id new_id c = None ->
  (new_id < 2 ^ 96)%N ->
  exists (d r : dict),
    post_tasks b now new_id w
    = (Ok (Some r),
       mk_world (Some (c ++ [d])) (FindOne new_id :: InsertOne d :: calls w)) /\
    status post_tasks_status (fst (post_tasks b now new_id w)) = 201 /\
    d !! "_id" = Some (VOid new_id) /\
    d !! "title" = Some (VStr (TaskCreate.title p)) /\
    d !! "completed" = Some (VBool false) /\
    d !! "created_at" = Some (VDate now) /\
    d !! "updated_at" = None /\
    serialize_task (Some d) = Ok (Some r) /\
    r !! "id" = Some (VStr (oid_str new_id)) /\
    r !! "completed" = Some (VBool false) /\
    r !! "created_at" = Some (VStr (isoformat now)) /\
    r !! "updated_at" = Some VNone /\
    (forall co,
       post_tasks (TaskCreate.mk_body (TaskCreate.b_title b)
                     (TaskCreate.b_notes b) (TaskCreate.b_priority b)
                     (TaskCreate.b_due_date b) co) now new_id w
       = post_tasks b now new_id w).
Proof.
  intros Hdb Hv Hfresh Hid.
  exists (created_doc p now new_id), (wire (created_doc p now new_id)).
  assert (post_tasks b now new_id w
          = (Ok (Some (wire (created_doc p now new_id))),
             mk_world (Some (c ++ [created_doc p now new_id]))
               (FindOne new_id :: InsertOne (created_doc p now new_id)
                :: calls w))) as Hrun.
  { unfold post_tasks. rewrite Hv. by apply create_task_run. }
  split; [exact Hrun|]. split; [by rewrite Hrun|].
  split; [apply created_id|]. split; [apply created_title|].
  split; [apply created_completed|]. split; [apply created_created_at|].
  split; [apply created_updated_at|].
  split.
  { apply serialize_task_wire;
      [apply created_nonempty | apply created_timestamps_ok]. }
  split. { rewrite wire_id. unfold get. by rewrite created_id. }
  split. { rewrite wire_completed. unfold get_or. by rewrite created_completed. }
  split.
  { rewrite wire_created_at. unfold wire_timestamp.
    by rewrite created_created_at. }
  split.
  { rewrite wire_updated_at. unfold wire_timestamp.
    by rewrite created_updated_at. }
  intros co. unfold post_tasks. destruct b. reflexivity.
Qed.

Lemma create_persists_one_record_witness :
  let w := mk_world (Some []) [] in
  let b := TaskCreate.mk_body (Given "a") Omitted Omitted Omitted (Given true) in
  exists (d r : dict),
    post_tasks b (mk_datetime 2024 1 2 3 4 5 0) 255%N w
    = (Ok (Some r),
       mk_world (Some [d]) [FindOne 255%N; InsertOne d]) /\
    d !! "completed" = Some (VBool false) /\
    r !! "completed" = Some (VBool false) /\
    r !! "created_at" = Some (VStr "2024-01-02T03:04:05") /\
    r !! "updated_at" = Some VNone.
Proof.
  intros w b.
  destruct (create_persists_one_record w [] b
              (TaskCreate.mk "a" None "normal" None)
              (mk_datetime 2024 1 2 3 4 5 0) 255%N
              eq_refl eq_refl eq_refl eq_refl)
    as (d & r & Hrun & _ & _ & _ & Hc & _ & _ & _ & _ & Hrc & Hrt & Hru & _).
  exists d, r. repeat split; assumption.
Defined.

(** ** The storage order is total *)

Lemma lex_opp c1 c2 : CompOpp (lex c1 c2) = lex (CompOpp c1) (CompOpp c2).
Proof. by destruct c1. Qed.

Lemma datetime_compare_antisym a b :
  datetime_compare b a = CompOpp (datetime_compare a b).
Proof.
  unfold datetime_compare. rewrite !lex_opp.
  by rewrite
    (Z.compare_antisym (year a)), (Z.compare_antisym (month a)),
    (Z.compare_antisym (day a)), (Z.compare_antisym (hour a)),
    (Z.compare_antisym (minute a)), (Z.compare_antisym (second a)),
    (Z.compare_antisym (microsecond a)).
Qed.

Lemma lex_lt_trans (x y z : Z) (rxy ryz rxz : comparison) :
  (rxy = Lt -> ryz = Lt -> rxz = Lt) ->
  lex (x ?= y) rxy = Lt -> lex (y ?= z) ryz = Lt -> lex (x ?= z) rxz = Lt.
Proof.
  intros Hr.
  destruct (Z.compare_spec x y), (Z.compare_spec y z), (Z.compare_spec x z);
    simpl; try done; try lia; auto.
Qed.

Lemma datetime_compare_lt_trans a b c :
  datetime_compare a b = Lt -> datetime_compare b c = Lt ->
  datetime_compare a c = Lt.
Proof.
  unfold datetime_compare.
  do 6 (apply lex_lt_trans). rewrite !Z.compare_lt_iff. lia.
Qed.

Lemma bson_compare_antisym a b : bson_compare b a = CompOpp (bson_compare a b).
Proof.
  destruct a as [|x|x|x|x], b as [|y|y|y|y]; simpl; try reflexivity.
  - apply String.compare_antisym.
  - by destruct x, y.
  - apply datetime_compare_antisym.
  - apply N.compare_antisym.
Qed.

Lemma bson_leb_total a b : bson_leb a b = false -> bson_leb b a = true.
Proof.
  unfold bson_leb. rewrite (bson_compare_antisym a b).
  by destruct (bson_compare a b).
Qed.

Lemma bson_leb_date_lt ta tb :
  datetime_compare ta tb = Lt -> bson_leb (VDate tb) (VDate ta) = false.
Proof.
  intros H. unfold bson_leb. simpl.
  by rewrite (datetime_compare_antisym ta tb), H.
Qed.

(** ** Sorting *)

Lemma insert_desc_Permutation key d l : insert_desc key d l ≡ₚ d :: l.
Proof.
  induction l as [|x r IH]; simpl; [done|].
  destruct (bson_leb _ _); [done|]. rewrite IH. apply Permutation_swap.
Qed.

Lemma sort_desc_Permutation key l : sort_desc key l ≡ₚ l.
Proof.
  induction l as [|x r IH]; simpl; [done|].
  rewrite insert_desc_Permutation. by rewrite IH.
Qed.

Lemma insert_desc_HdRel key a d l :
  desc key a d -> HdRel (desc key) a l -> HdRel (desc key) a (insert_desc key d l).
Proof.
  intros Had Hal. destruct l as [|x r]; simpl; [by constructor|].
  destruct (bson_leb _ _); constructor; [done|]. by inversion Hal.
Qed.

Lemma insert_desc_Sorted key d l :
  Sorted (desc key) l -> Sorted (desc key) (insert_desc key d l).
Proof.
  induction 1 as [|x r Hr IH Hhd]; simpl; [by repeat constructor|].
  destruct (bson_leb (get x key) (get d key)) eqn:E.
  - constructor; [by constructor|]. by constructor.
  - constructor; [done|]. apply insert_desc_HdRel; [|done].
    by apply bson_leb_total.
Qed.

Lemma sort_desc_Sorted key l : Sorted (desc key) (sort_desc key l).
Proof.
  induction l as [|x r IH]; simpl; [constructor|].
  by apply insert_desc_Sorted.
Qed.

(** ** List *)

Lemma record_ok_nonempty d : record_ok d -> d ≠ ∅.
Proof. intros [[v Hv] _] ->. by rewrite lookup_empty in Hv. Qed.

Lemma serialize_all_wire docs :
  Forall record_ok docs ->
  serialize_all docs = Ok (map (fun d => Some (wire d)) docs).
Proof.
  induction 1 as [|d r Hd Hr IH]; cbn [serialize_all map]; [done|].
  rewrite (serialize_task_wire d (record_ok_nonempty d Hd) (proj2 Hd)).
  by rewrite IH.
Qed.

Lemma list_tasks_run w c :
  db w = Some c ->
  list_tasks w
  = (serialize_all (sort_desc "created_at" c),
     mk_world (Some c) (Find :: calls w)).
Proof.
  intros Hdb. unfold list_tasks.
  rewrite (bind_ok _ _ _ _ _ (run_read_db w)), Hdb.
  by erewrite bind_ok by (by apply run_find_sorted).
Qed.

Lemma created_record_ok p now o : record_ok (created_doc p now o).
Proof.
  split; [|apply created_timestamps_ok]. rewrite created_id. by eexists.
Qed.

Lemma get_created_at p now o : get (created_doc p now o) "created_at" = VDate now.
Proof. unfold get. by rewrite created_created_at. Qed.

(** ** The storage order is transitive *)

Lemma lex_le_trans (x y z : Z) (rxy ryz rxz : comparison) :
  (not_gt rxy -> not_gt ryz -> not_gt rxz) ->
  not_gt (lex (x ?= y) rxy) -> not_gt (lex (y ?= z) ryz) ->
  not_gt (lex (x ?= z) rxz).
Proof.
  unfold not_gt. intros Hr.
  destruct (Z.compare_spec x y), (Z.compare_spec y z), (Z.compare_spec x z);
    simpl; try done; try lia; auto.
Qed.

Lemma datetime_compare_le_trans a b c :
  not_gt (datetime_compare a b) -> not_gt (datetime_compare b c) ->
  not_gt (datetime_compare a c).
Proof.
  unfold datetime_compare.
  do 6 (apply lex_le_trans). unfold not_gt. rewrite !Z.compare_gt_iff. lia.
Qed.

Lemma string_compare_le_trans x y z :
  not_gt (String.compare x y) -> not_gt (String.compare y z) ->
  not_gt (String.compare x z).
Proof.
  unfold not_gt. revert y z.
  induction x as [|a x IH]; intros [|b y] [|c z]; simpl; try done.
  unfold Ascii.compare.
  destruct (N.compare_spec (N_of_ascii a) (N_of_ascii b)),
    (N.compare_spec (N_of_ascii b) (N_of_ascii c)),
    (N.compare_spec (N_of_ascii a) (N_of_ascii c));
    try done; try lia. apply IH.
Qed.

Lemma bson_compare_le_trans a b c :
  not_gt (bson_compare a b) -> not_gt (bson_compare b c) ->
  not_gt (bson_compare a c).
Proof.
  destruct a as [|x|x|x|x], b as [|y|y|y|y], c as [|z|z|z|z];
    simpl; try done; try (intros H; by exfalso; apply H).
  - apply string_compare_le_trans.
  - unfold not_gt. by destruct x, y, z.
  - apply datetime_compare_le_trans.
  - unfold not_gt. rewrite !N.compare_gt_iff. lia.
Qed.

Lemma bson_leb_not_gt a b : bson_leb a b = true <-> not_gt (bson_compare a b).
Proof. unfold bson_leb, not_gt. by destruct (bson_compare a b). Qed.

Lemma bson_leb_trans a b c :
  bson_leb a b = true -> bson_leb b c = true -> bson_leb a c = true.
Proof. rewrite !bson_leb_not_gt. apply bson_compare_le_trans. Qed.

Lemma desc_trans key x y z : desc key x y -> desc key y z -> desc key x z.
Proof. unfold desc. intros Hxy Hyz. by eapply bson_leb_trans. Qed.

Lemma sort_desc_StronglySorted key l :
  StronglySorted (desc key) (sort_desc key l).
Proof.
  apply Sorted_StronglySorted; [|apply sort_desc_Sorted].
  intros x y z. apply desc_trans.
Qed.

Lemma sort_three_created pA pB pC tA tB tC oA oB oC :
  datetime_compare tA tB = Lt ->
  datetime_compare tB tC = Lt ->
  sort_desc "created_at"
    [created_doc pA tA oA; created_doc pB tB oB; created_doc pC tC oC]
  = [created_doc pC tC oC; created_doc pB tB oB; created_doc pA tA oA].
Proof.
  intros Hab Hbc.
  pose proof (datetime_compare_lt_trans _ _ _ Hab Hbc) as Hac.
  cbn [sort_desc foldr insert_desc]. rewrite !get_created_at.
  rewrite (bson_leb_date_lt _ _ Hbc). cbn [insert_desc].
  rewrite !get_created_at.
  rewrite (bson_leb_date_lt _ _ Hac). cbn [insert_desc].
  rewrite ?get_created_at.
  by rewrite (bson_leb_date_lt _ _ Hab).
Qed.

Lemma has_id_created_other p now o o' :
  o' ≠ o -> has_id o' (created_doc p now o) = false.
Proof. intros Hne. eapply has_id_other; [apply has_id_created | done]. Qed.

(** C9. On a configured store whose records are records of the data
    model, list returns every stored record, serialized, each exactly once
    (the listed records are a permutation of the stored ones), in an order
    descending on [created_at]: every record is listed before any record
    whose [created_at] sorts lower. The store is only read. An empty store
    gives the empty list. For tasks A, B, C created in that order on an
    empty store, at strictly increasing clock readings and under distinct
    ids, list returns [C, B, A], the three responses of the creates. *)
Theorem list_tasks_newest_first (w : world) (c : list dict) :
  db w = Some c ->
  Forall record_ok c ->
  (exists docs : list dict,
     list_tasks w
     = (Ok (map (fun d => Some (wire d)) docs),
        mk_world (Some c) (Find :: calls w)) /\
     docs ≡ₚ c /\
     StronglySorted
       (fun x y => bson_leb (get y "created_at") (get x "created_at") = true)
       docs /\
     Forall (fun d => serialize_task (Some d) = Ok (Some (wire d))) docs) /\
  (c = [] -> fst (list_tasks w) = Ok []) /\
  (c = [] ->
   forall pA pB pC tA tB tC oA oB oC,
     datetime_compare tA tB = Lt ->
     datetime_compare tB tC = Lt ->
     oA ≠ oB -> oA ≠ oC -> oB ≠ oC ->
     (oA < 2 ^ 96)%N -> (oB < 2 ^ 96)%N -> (oC < 2 ^ 96)%N ->
     exists rA rB rC wA wB wC,
       create_task pA tA oA w = (Ok rA, wA) /\
       create_task pB tB oB wA = (Ok rB, wB) /\
       create_task pC tC oC wB = (Ok rC, wC) /\
       fst (list_tasks wC) = Ok [rC; rB; rA]).
Proof.
  intros Hdb Hok. split; [|split].
  - exists (sort_desc "created_at" c).
    assert (Forall record_ok (sort_desc "created_at" c)) as Hok'.
    { by rewrite sort_desc_Permutation. }
    rewrite (list_tasks_run w c Hdb), (serialize_all_wire _ Hok').
    split; [done|]. split; [apply sort_desc_Permutation|].
    split; [apply sort_desc_StronglySorted|].
    eapply Forall_impl; [exact Hok'|]. intros d Hd. simpl.
    apply serialize_task_wire; [by apply record_ok_nonempty | apply Hd].
  - intros ->. by rewrite (list_tasks_run w [] Hdb).
  - intros -> pA pB pC tA tB tC oA oB oC Hab Hbc HAB HAC HBC HA HB HC.
    set (dA := created_doc pA tA oA). set (dB := created_doc pB tB oB).
    set (dC := created_doc pC tC oC).
    eexists (Some (wire dA)), (Some (wire dB)), (Some (wire dC)), _, _, _.
    split; [by apply (create_task_run w [])|].
    split.
    { apply (create_task_run _ [dA]); [done| |done].
      simpl. unfold dA. by rewrite has_id_created_other. }
    split.
    { apply (create_task_run _ [dA; dB]); [done| |done].
      simpl. unfold dA, dB. by rewrite !has_id_created_other. }
    erewrite list_tasks_run by reflexivity. cbn [fst app].
    unfold dA, dB, dC. rewrite (sort_three_created _ _ _ _ _ _ _ _ _ Hab Hbc).
    apply serialize_all_wire. repeat constructor; apply created_record_ok.
Qed.

Lemma list_tasks_newest_first_witness :
  let w := mk_world (Some []) [] in
  let p := TaskCreate.mk "a" None "normal" None in
  exists rA rB rC wA wB wC,
    create_task p (mk_datetime 2024 1 2 3 4 5 0) 1%N w = (Ok rA, wA) /\
    create_task p (mk_datetime 2024 1 2 3 4 6 0) 2%N wA = (Ok rB, wB) /\
    create_task p (mk_datetime 2024 1 2 3 4 7 0) 3%N wB = (Ok rC, wC) /\
    fst (list_tasks wC) = Ok [rC; rB; rA].
Proof.
  intros w p.
  destruct (list_tasks_newest_first w [] eq_refl (List.Forall_nil record_ok)) as (_ & _ & H).
  apply (H eq_refl p p p); first [ reflexivity | discriminate ].
Defined.

(** ** The records the service persists

    Starting from an empty collection, whatever requests are served, every
    stored record is a record of the data model: the hypotheses on stored
    records made above hold of every record the service itself wrote. *)

Lemma record_ok_union (upd d : dict) :
  upd !! "_id" = None ->
  timestamp_value_ok (upd !! "due_date") ->
  timestamp_value_ok (upd !! "created_at") ->
  timestamp_value_ok (upd !! "updated_at") ->
  record_ok d -> record_ok (upd ∪ d).
Proof.
  intros Hid H1 H2 H3 (Hi & Hd & Hc & Hu).
  unfold record_ok, timestamps_ok, timestamp_ok in *.
  rewrite lookup_union_r by done. split; [done|].
  rewrite !lookup_union.
  destruct (upd !! "due_date"), (upd !! "created_at"), (upd !! "updated_at"),
    (d !! "due_date"), (d !! "created_at"), (d !! "updated_at"); done.
Qed.

Lemma set_first_Forall (P : dict -> Prop) o upd c :
  (forall d, P d -> P (upd ∪ d)) ->
  Forall P c -> Forall P (set_first o upd c).2.
Proof.
  intros HP. induction 1 as [|x r Hx Hr IH]; simpl; [constructor|].
  destruct (has_id o x); simpl; [constructor; auto|].
  destruct (set_first o upd r) as [n r']. simpl in *. by constructor.
Qed.

Lemma remove_first_Forall (P : dict -> Prop) o c :
  Forall P c -> Forall P (remove_first o c).2.
Proof.
  induction 1 as [|x r Hx Hr IH]; simpl; [constructor|].
  destruct (has_id o x); simpl; [done|].
  destruct (remove_first o r) as [n r']. simpl in *. by constructor.
Qed.

Lemma record_ok_updated p now d :
  record_ok d -> record_ok (updates_of p now ∪ d).
Proof.
  apply record_ok_union; [apply updates_of_id | | | ].
  - rewrite updates_of_lookup, model_dump_due_date by done.
    by destruct (TaskUpdate.due_date p) as [|[t|]].
  - rewrite updates_of_lookup by done.
    rewrite model_dump_other; [done|]. unfold update_fields.
    rewrite !not_elem_of_cons. repeat split; try done. apply not_elem_of_nil.
  - unfold updates_of. by rewrite lookup_insert_eq.
Qed.

Lemma record_ok_toggled d0 now d :
  record_ok d -> record_ok (toggle_updates d0 now ∪ d).
Proof.
  apply record_ok_union; unfold toggle_updates; simpl;
    rewrite ?lookup_insert_ne by done; rewrite ?lookup_insert_eq; done.
Qed.

Lemma list_tasks_store_ok w : store_ok w -> store_ok (snd (list_tasks w)).
Proof.
  intros Hw. destruct (db w) as [c|] eqn:Hdb.
  - rewrite (list_tasks_run w c Hdb). intros c' [= <-]. by apply Hw.
  - by rewrite (list_tasks_unconfigured w Hdb).
Qed.

Lemma create_task_store_ok p now new_id w :
  store_ok w -> store_ok (snd (create_task p now new_id w)).
Proof.
  intros Hw. destruct (db w) as [c|] eqn:Hdb;
    [|by rewrite (create_task_unconfigured w Hdb)].
  assert (Forall record_ok (c ++ [created_doc p now new_id])) as Hok.
  { apply Forall_app. split; [by apply Hw|].
    constructor; [apply created_record_ok | constructor]. }
  unfold create_task.
  rewrite (bind_ok _ _ _ _ _ (run_read_db w)), Hdb.
  fold (create_data p). unfold create_document.
  rewrite create_data_created_at. fold (created_doc p now new_id).
  erewrite (bind_ok (bind _ _)); cycle 1.
  { erewrite bind_ok by (by apply run_insert_one). reflexivity. }
  destruct (ObjectId (oid_str new_id)) as [o|].
  - erewrite bind_ok by (by apply run_find_one). by intros c' [= <-].
  - by intros c' [= <-].
Qed.

Lemma update_task_store_ok task_id p now w :
  store_ok w -> store_ok (snd (update_task task_id p now w)).
Proof.
  intros Hw. destruct (db w) as [c|] eqn:Hdb;
    [|by rewrite (update_task_unconfigured w Hdb)].
  unfold update_task.
  rewrite (bind_ok _ _ _ _ _ (run_read_db w)), Hdb.
  destruct (ObjectId task_id) as [o|]; [|done].
  destruct (bool_decide _); [done|]. fold (updates_of p now).
  erewrite bind_ok by (by apply run_update_one).
  assert (Forall record_ok (set_first o (updates_of p now) c).2) as Hok.
  { apply set_first_Forall; [apply record_ok_updated | by apply Hw]. }
  destruct (_ =? _)%nat; [by intros c' [= <-]|].
  erewrite bind_ok by (by apply run_find_one). by intros c' [= <-].
Qed.

Lemma toggle_task_store_ok task_id now w :
  store_ok w -> store_ok (snd (toggle_task task_id now w)).
Proof.
  intros Hw. destruct (db w) as [c|] eqn:Hdb;
    [|by rewrite (toggle_task_unconfigured w Hdb)].
  unfold toggle_task.
  rewrite (bind_ok _ _ _ _ _ (run_read_db w)), Hdb.
  destruct (ObjectId task_id) as [o|]; [|done].
  rewrite (bind_ok _ _ _ _ _ (run_find_one o w c Hdb)).
  destruct (lookup_id o c) as [d|]; [|intros c' [= <-]; by apply Hw].
  destruct (bool_decide _); [intros c' [= <-]; by apply Hw|].
  fold (completed_of d). fold (toggle_updates d now).
  erewrite bind_ok by (by apply run_update_one).
  erewrite bind_ok by (by apply run_find_one).
  intros c' [= <-].
  apply set_first_Forall; [apply record_ok_toggled | by apply Hw].
Qed.

Lemma delete_task_store_ok task_id w :
  store_ok w -> store_ok (snd (delete_task task_id w)).
Proof.
  intros Hw. destruct (db w) as [c|] eqn:Hdb;
    [|by rewrite (delete_task_unconfigured w Hdb)].
  unfold delete_task.
  rewrite (bind_ok _ _ _ _ _ (run_read_db w)), Hdb.
  destruct (ObjectId task_id) as [o|]; [|done].
  erewrite bind_ok by (by apply run_delete_one).
  destruct (_ =? _)%nat; intros c' [= <-];
    apply remove_first_Forall; by apply Hw.
Qed.

Lemma serve_store_ok r w : store_ok w -> store_ok (serve r w).
Proof.
  intros Hw. destruct r as [|b now o|task_id b now|task_id now|task_id]; simpl.
  - by apply list_tasks_store_ok.
  - unfold post_tasks. destruct (TaskCreate.validate b); [done|].
    by apply create_task_store_ok.
  - unfold patch_task. destruct (TaskUpdate.validate b); [done|].
    by apply update_task_store_ok.
  - by apply toggle_task_store_ok.
  - by apply delete_task_store_ok.
Qed.

(** Every record of a reachable store is a record of the data model, and
    so serializes without raising. *)
Lemma reachable_store_ok w : reachable w -> store_ok w.
Proof.
  induction 1 as [|r w Hw IH]; [|by apply serve_store_ok].
  intros c [= <-]. constructor.
Qed.

Lemma reachable_serializes w c d :
  reachable w -> db w = Some c -> d ∈ c ->
  serialize_task (Some d) = Ok (Some (wire d)).
Proof.
  intros Hw Hdb Hd. pose proof (reachable_store_ok w Hw c Hdb) as Hok.
  rewrite Forall_forall in Hok. specialize (Hok d Hd).
  apply serialize_task_wire; [by apply record_ok_nonempty | apply Hok].
Qed.

(** * Further properties of the endpoints *)

(** ** Delete *)

Lemma lookup_id_None o c :
  lookup_id o c = None <-> Forall (fun d => has_id o d = false) c.
Proof.
  induction c as [|x r IH]; simpl; [by split; [constructor|]|].
  destruct (has_id o x) eqn:E.
  - split; [done|]. intros H. inversion H; congruence.
  - rewrite IH. split; [by constructor | by inversion 1].
Qed.

Lemma lookup_id_app o c1 c2 :
  lookup_id o (c1 ++ c2)
  = match lookup_id o c1 with Some d => Some d | None => lookup_id o c2 end.
Proof.
  induction c1 as [|x r IH]; simpl; [done|]. by destruct (has_id o x).
Qed.

Lemma remove_first_not_found o c :
  lookup_id o c = None -> remove_first o c = (O, c).
Proof.
  induction c as [|x r IH]; simpl; [done|].
  destruct (has_id o x); [done|]. intros H. by rewrite (IH H).
Qed.

Lemma remove_first_found o c d :
  lookup_id o c = Some d ->
  exists c1 c2,
    c = c1 ++ d :: c2 /\ lookup_id o c1 = None /\
    remove_first o c = (1%nat, c1 ++ c2).
Proof.
  induction c as [|x r IH]; simpl; [done|].
  destruct (has_id o x) eqn:E.
  - intros [= ->]. by exists [], r.
  - intros H. destruct (IH H) as (c1 & c2 & -> & Hc1 & Hr).
    exists (x :: c1), c2. simpl. by rewrite E, Hr.
Qed.

Lemma unique_ids_no_other o c1 d c2 :
  unique_ids (c1 ++ d :: c2) -> has_id o d = true ->
  lookup_id o (c1 ++ c2) = None.
Proof.
  unfold unique_ids, ids. rewrite map_app. simpl.
  intros Hnd Hd%bool_decide_eq_true.
  apply NoDup_app in Hnd as (_ & Hdisj & Hnd2).
  apply NoDup_cons in Hnd2 as [Hnotin _].
  apply lookup_id_None, Forall_app. split; apply Forall_forall; intros x Hx;
    apply bool_decide_eq_false; intros Hxo.
  - apply (Hdisj (x !! "_id")); [by apply list_elem_of_fmap_2|].
    rewrite Hxo, <- Hd. apply elem_of_cons. by left.
  - apply Hnotin. rewrite Hd, <- Hxo. by apply list_elem_of_fmap_2.
Qed.

Lemma delete_task_run w c task_id o :
  db w = Some c ->
  ObjectId task_id = Some o ->
  delete_task task_id w
  = (if ((remove_first o c).1 =? 0)%nat
     then Raise (HTTPException 404 "Task not found") else Ok tt,
     mk_world (Some (remove_first o c).2) (DeleteOne o :: calls w)).
Proof.
  intros Hdb Hid. unfold delete_task.
  rewrite (bind_ok _ _ _ _ _ (run_read_db w)), Hdb, Hid.
  erewrite bind_ok by (by apply run_delete_one).
  by destruct (_ =? _)%nat.
Qed.

(** X1. Delete of a stored task removes exactly the first record carrying
    the id and keeps the others in their order: the response is the empty
    204, records under other ids are found as before, and, ids being
    unique, no record is found under the deleted id any more. *)
Theorem delete_removes_the_record (w : world) (c : list dict)
    (task_id : string) (o : oid) (d : dict) :
  db w = Some c ->
  ObjectId task_id = Some o ->
  lookup_id o c = Some d ->
  exists c1 c2,
    c = c1 ++ d :: c2 /\
    lookup_id o c1 = None /\
    delete_task task_id w
    = (Ok tt, mk_world (Some (c1 ++ c2)) (DeleteOne o :: calls w)) /\
    status delete_task_status (fst (delete_task task_id w)) = 204 /\
    (forall o', o' ≠ o -> lookup_id o' (c1 ++ c2) = lookup_id o' c) /\
    (unique_ids c -> lookup_id o (c1 ++ c2) = None).
Proof.
  intros Hdb Hid Hd.
  destruct (remove_first_found o c d Hd) as (c1 & c2 & -> & Hc1 & Hr).
  exists c1, c2. rewrite (delete_task_run w _ task_id o Hdb Hid), Hr. simpl.
  split; [done|]. split; [done|]. split; [done|]. split; [done|].
  pose proof (lookup_id_has_id o _ d Hd) as Hhas.
  split.
  - intros o' Hne. rewrite !lookup_id_app. simpl.
    by rewrite (has_id_other o o' d Hhas Hne).
  - intros Hu. by eapply unique_ids_no_other.
Qed.

Lemma delete_removes_the_record_witness :
  let a : dict := {["_id" := VOid 1%N]} in
  let b : dict := {["_id" := VOid 2%N]} in
  delete_task "000000000000000000000001" (mk_world (Some [a; b]) [])
  = (Ok tt, mk_world (Some [b]) [DeleteOne 1%N]).
Proof.
  intros a b.
  destruct (delete_removes_the_record (mk_world (Some [a; b]) []) [a; b]
              "000000000000000000000001" 1%N a eq_refl eq_refl eq_refl)
    as (c1 & c2 & Hc & Hc1 & Hrun & _).
  destruct c1 as [|x c1]; [|exfalso].
  - simpl in Hc. injection Hc as <-. exact Hrun.
  - simpl in Hc. injection Hc as <- _. simpl in Hc1. discriminate Hc1.
Defined.

(** X2. Delete of a well-formed id that no stored record carries raises
    the 404 "Task not found" error after its one store call, and every
    record is still there. *)
Theorem delete_missing_404 (w : world) (c : list dict) (task_id : string)
    (o : oid) :
  db w = Some c ->
  ObjectId task_id = Some o ->
  lookup_id o c = None ->
  delete_task task_id w
  = (Raise (HTTPException 404 "Task not found"),
     mk_world (Some c) (DeleteOne o :: calls w)) /\
  status delete_task_status (fst (delete_task task_id w)) = 404.
Proof.
  intros Hdb Hid Hd.
  rewrite (delete_task_run w c task_id o Hdb Hid).
  by rewrite (remove_first_not_found o c Hd).
Qed.

Lemma delete_missing_404_witness :
  delete_task "000000000000000000000003"
    (mk_world (Some [{["_id" := VOid 1%N]}]) [])
  = (Raise (HTTPException 404 "Task not found"),
     mk_world (Some [{["_id" := VOid 1%N]}]) [DeleteOne 3%N]).
Proof.
  exact (proj1 (delete_missing_404 (mk_world (Some [{["_id" := VOid 1%N]}]) [])
                  [{["_id" := VOid 1%N]}] "000000000000000000000003" 3%N
                  eq_refl eq_refl eq_refl)).
Defined.

Lemma update_task_not_found w c task_id o p now :
  db w = Some c ->
  ObjectId task_id = Some o ->
  lookup_id o c = None ->
  TaskUpdate.model_dump_exclude_unset p ≠ ∅ ->
  update_task task_id p now w
  = (Raise (HTTPException 404 "Task not found"),
     mk_world (Some c) (UpdateOne o (updates_of p now) :: calls w)).
Proof.
  intros Hdb Hid Hd Hne. unfold update_task.
  rewrite (bind_ok _ _ _ _ _ (run_read_db w)), Hdb, Hid.
  rewrite bool_decide_eq_false_2 by done. fold (updates_of p now).
  erewrite bind_ok by (by apply run_update_one).
  by rewrite (set_first_not_found o _ c Hd).
Qed.

(** X3. Once a task is deleted, ids being unique, every later request on
    its id fails with the 404 "Task not found" error: a second delete, a
    toggle, and an update that supplies some field. *)
Theorem deleted_task_is_gone (w : world) (c : list dict) (task_id : string)
    (o : oid) (d : dict) :
  db w = Some c ->
  ObjectId task_id = Some o ->
  lookup_id o c = Some d ->
  unique_ids c ->
  let w1 := snd (delete_task task_id w) in
  let e := HTTPException 404 "Task not found" in
  fst (delete_task task_id w1) = Raise e /\
  (forall now, fst (toggle_task task_id now w1) = Raise e) /\
  (forall p now,
     p ≠ TaskUpdate.mk unset unset unset unset unset ->
     fst (update_task task_id p now w1) = Raise e).
Proof.
  intros Hdb Hid Hd Hu w1 e.
  destruct (remove_first_found o c d Hd) as (c1 & c2 & -> & Hc1 & Hr).
  assert (lookup_id o (c1 ++ c2) = None) as Hgone.
  { eapply unique_ids_no_other; [exact Hu|]. by eapply lookup_id_has_id. }
  assert (db w1 = Some (c1 ++ c2)) as Hdb1.
  { unfold w1. rewrite (delete_task_run w _ task_id o Hdb Hid), Hr. done. }
  split; [|split].
  - rewrite (delete_task_run w1 _ task_id o Hdb1 Hid).
    by rewrite (remove_first_not_found o _ Hgone).
  - intros now. by rewrite (toggle_task_not_found w1 _ task_id o now Hdb1 Hid Hgone).
  - intros p now Hp.
    rewrite (update_task_not_found w1 _ task_id o p now Hdb1 Hid Hgone); [done|].
    intros He. by apply model_dump_empty_iff in He.
Qed.

Lemma deleted_task_is_gone_witness :
  let w := mk_world (Some [{["_id" := VOid 1%N]}]) [] in
  let w1 := snd (delete_task "000000000000000000000001" w) in
  fst (delete_task "000000000000000000000001" w1)
  = Raise (HTTPException 404 "Task not found").
Proof.
  intros w w1.
  refine (proj1 (deleted_task_is_gone w [{["_id" := VOid 1%N]}]
                   "000000000000000000000001" 1%N {["_id" := VOid 1%N]}
                   eq_refl eq_refl eq_refl _)).
  unfold unique_ids, ids. simpl. apply NoDup_singleton.
Defined.

(** X4. An update that supplies some field, on a well-formed id that no
    stored record carries, raises the 404 "Task not found" error: the one
    store call it made matched nothing and every record is as before. *)
Theorem update_missing_404 (w : world) (c : list dict) (task_id : string)
    (o : oid) (b : TaskUpdate.body) (p : TaskUpdate.t) (now : datetime) :
  db w = Some c ->
  ObjectId task_id = Some o ->
  lookup_id o c = None ->
  TaskUpdate.validate b = inr p ->
  p ≠ TaskUpdate.mk unset unset unset unset unset ->
  patch_task task_id b now w
  = (Raise (HTTPException 404 "Task not found"),
     mk_world (Some c) (UpdateOne o (updates_of p now) :: calls w)) /\
  status patch_task_status (fst (patch_task task_id b now w)) = 404.
Proof.
  intros Hdb Hid Hd Hv Hp. unfold patch_task. rewrite Hv.
  rewrite (update_task_not_found w c task_id o p now Hdb Hid Hd); [done|].
  intros He. by apply model_dump_empty_iff in He.
Qed.

Lemma update_missing_404_witness :
  let w := mk_world (Some [{["_id" := VOid 1%N]}]) [] in
  fst (patch_task "000000000000000000000002"
         (TaskUpdate.mk_body (Given "t") Omitted Omitted Omitted Omitted)
         (mk_datetime 2024 1 2 3 4 5 0) w)
  = Raise (HTTPException 404 "Task not found").
Proof.
  intros w.
  destruct (update_missing_404 w [{["_id" := VOid 1%N]}]
              "000000000000000000000002" 2%N
              (TaskUpdate.mk_body (Given "t") Omitted Omitted Omitted Omitted)
              (TaskUpdate.mk (set (Some "t")) unset unset unset unset)
              (mk_datetime 2024 1 2 3 4 5 0)
              eq_refl eq_refl eq_refl eq_refl) as [H _]; [discriminate|].
  by rewrite H.
Defined.

(** ** Identity of the records *)

Lemma same_identity_refl d : same_identity d d.
Proof. by split. Qed.

Lemma same_identity_union (upd d : dict) :
  upd !! "_id" = None -> upd !! "created_at" = None ->
  same_identity d (upd ∪ d).
Proof. intros H1 H2. split; by rewrite lookup_union_r. Qed.

Lemma set_first_Forall2 (R : dict -> dict -> Prop) o upd c :
  (forall d, R d d) -> (forall d, R d (upd ∪ d)) ->
  Forall2 R c (set_first o upd c).2.
Proof.
  intros Hrefl Hupd. induction c as [|x r IH]; simpl; [constructor|].
  destruct (has_id o x); simpl.
  - constructor; [apply Hupd|]. clear IH. induction r; constructor; auto.
  - destruct (set_first o upd r) as [n r']. simpl in *. by constructor.
Qed.

Lemma updates_of_created_at p now : updates_of p now !! "created_at" = None.
Proof.
  rewrite updates_of_lookup by done. apply model_dump_other.
  unfold update_fields. rewrite !not_elem_of_cons.
  repeat split; try done. apply not_elem_of_nil.
Qed.

Lemma toggle_updates_created_at d now :
  toggle_updates d now !! "created_at" = None.
Proof. unfold toggle_updates. simpl. by rewrite !lookup_insert_ne. Qed.

Lemma Forall2_same_identity_refl c : Forall2 same_identity c c.
Proof. induction c; constructor; [apply same_identity_refl | done]. Qed.

Lemma update_task_identity task_id p now w c :
  db w = Some c ->
  exists c', db (snd (update_task task_id p now w)) = Some c' /\
             Forall2 same_identity c c'.
Proof.
  intros Hdb. unfold update_task.
  rewrite (bind_ok _ _ _ _ _ (run_read_db w)), Hdb.
  destruct (ObjectId task_id) as [o|];
    [|exists c; split; [done | apply Forall2_same_identity_refl]].
  destruct (bool_decide _);
    [exists c; split; [done | apply Forall2_same_identity_refl]|].
  fold (updates_of p now).
  erewrite bind_ok by (by apply run_update_one).
  exists (set_first o (updates_of p now) c).2. split.
  - destruct (_ =? _)%nat; [done|].
    by erewrite bind_ok by (by apply run_find_one).
  - apply set_first_Forall2; [apply same_identity_refl|].
    intros d. apply same_identity_union;
      [apply updates_of_id | apply updates_of_created_at].
Qed.

Lemma toggle_task_identity task_id now w c :
  db w = Some c ->
  exists c', db (snd (toggle_task task_id now w)) = Some c' /\
             Forall2 same_identity c c'.
Proof.
  intros Hdb. unfold toggle_task.
  rewrite (bind_ok _ _ _ _ _ (run_read_db w)), Hdb.
  destruct (ObjectId task_id) as [o|];
    [|exists c; split; [done | apply Forall2_same_identity_refl]].
  rewrite (bind_ok _ _ _ _ _ (run_find_one o w c Hdb)).
  destruct (lookup_id o c) as [d|];
    [|exists c; split; [done | apply Forall2_same_identity_refl]].
  destruct (bool_decide _);
    [exists c; split; [done | apply Forall2_same_identity_refl]|].
  fold (completed_of d). fold (toggle_updates d now).
  erewrite bind_ok by (by apply run_update_one).
  erewrite bind_ok by (by apply run_find_one).
  exists (set_first o (toggle_updates d now) c).2. split; [done|].
  apply set_first_Forall2; [apply same_identity_refl|].
  intros d'. apply same_identity_union;
    [apply toggle_updates_id | apply toggle_updates_created_at].
Qed.

(** X5. Whatever the id, the body and the outcome, a PATCH and a toggle
    leave the collection with the same number of records in the same
    order, each with the [_id] and the [created_at] it had: neither
    operation adds, drops, reorders or re-dates a record. *)
Theorem update_and_toggle_keep_identity (w : world) (c : list dict) :
  db w = Some c ->
  (forall task_id b now,
     exists c', db (snd (patch_task task_id b now w)) = Some c' /\
                Forall2 same_identity c c') /\
  (forall task_id now,
     exists c', db (snd (toggle_task task_id now w)) = Some c' /\
                Forall2 same_identity c c').
Proof.
  intros Hdb. split.
  - intros task_id b now. unfold patch_task.
    destruct (TaskUpdate.validate b) as [e|p].
    + exists c. split; [done | apply Forall2_same_identity_refl].
    + by apply update_task_identity.
  - intros task_id now. by apply toggle_task_identity.
Qed.

Lemma update_and_toggle_keep_identity_witness :
  let d : dict := {["_id" := VOid 1%N;
                    "created_at" := VDate (mk_datetime 2024 1 2 3 4 5 0)]} in
  exists c',
    db (snd (toggle_task "000000000000000000000001"
               (mk_datetime 2025 1 1 0 0 0 0) (mk_world (Some [d]) [])))
    = Some c' /\
    Forall2 same_identity [d] c'.
Proof.
  intros d.
  exact (proj2 (update_and_toggle_keep_identity (mk_world (Some [d]) []) [d]
                  eq_refl)
           "000000000000000000000001" (mk_datetime 2025 1 1 0 0 0 0)).
Defined.

(** ** The handle and the reachable worlds *)

Lemma create_task_db p now new_id w c :
  db w = Some c ->
  db (snd (create_task p now new_id w))
  = Some (c ++ [created_doc p now new_id]).
Proof.
  intros Hdb. unfold create_task.
  rewrite (bind_ok _ _ _ _ _ (run_read_db w)), Hdb.
  fold (create_data p). unfold create_document.
  rewrite create_data_created_at. fold (created_doc p now new_id).
  erewrite (bind_ok (bind _ _)); cycle 1.
  { erewrite bind_ok by (by apply run_insert_one). reflexivity. }
  destruct (ObjectId (oid_str new_id)) as [o|]; [|done].
  by erewrite bind_ok by (by apply run_find_one).
Qed.

Lemma delete_task_db task_id w c :
  db w = Some c ->
  db (snd (delete_task task_id w)) = Some c \/
  exists o, db (snd (delete_task task_id w)) = Some (remove_first o c).2.
Proof.
  intros Hdb. destruct (ObjectId task_id) as [o|] eqn:Hid.
  - right. exists o. by rewrite (delete_task_run w c task_id o Hdb Hid).
  - left. by rewrite (delete_task_malformed w c task_id Hdb Hid).
Qed.

Lemma serve_configured r w c :
  db w = Some c -> exists c', db (serve r w) = Some c'.
Proof.
  intros Hdb. destruct r as [|b now o|task_id b now|task_id now|task_id]; simpl.
  - exists c. by rewrite (list_tasks_run w c Hdb).
  - unfold post_tasks. destruct (TaskCreate.validate b); [by exists c|].
    eexists. by apply create_task_db.
  - unfold patch_task. destruct (TaskUpdate.validate b); [by exists c|].
    destruct (update_task_identity task_id t now w c Hdb) as (c' & H & _).
    by exists c'.
  - destruct (toggle_task_identity task_id now w c Hdb) as (c' & H & _).
    by exists c'.
  - destruct (delete_task_db task_id w c Hdb) as [H | [o H]]; eauto.
Qed.

Lemma reachable_configured w : reachable w -> exists c, db w = Some c.
Proof.
  induction 1 as [|r w Hw [c Hc]]; [by exists []|].
  by eapply serve_configured.
Qed.

(** X6. In every world the service reaches from an empty collection,
    whatever requests it served, list succeeds: it returns the
    serialization of every stored record, none of which makes
    [serialize_task] raise. *)
Theorem reachable_list_succeeds (w : world) :
  reachable w ->
  exists c,
    db w = Some c /\
    fst (list_tasks w)
    = Ok (map (fun d => Some (wire d)) (sort_desc "created_at" c)) /\
    Forall (fun d => serialize_task (Some d) = Ok (Some (wire d))) c.
Proof.
  intros Hw. destruct (reachable_configured w Hw) as [c Hdb]. exists c.
  pose proof (reachable_store_ok w Hw c Hdb) as Hok.
  split; [done|]. split.
  - rewrite (list_tasks_run w c Hdb). simpl. apply serialize_all_wire.
    by rewrite sort_desc_Permutation.
  - eapply Forall_impl; [exact Hok|]. intros d Hd. simpl.
    apply serialize_task_wire; [by apply record_ok_nonempty | apply Hd].
Qed.

Lemma reachable_list_succeeds_witness :
  let w :=
    serve (PostToggle "000000000000000000000001" (mk_datetime 2024 1 2 3 4 6 0))
      (serve (PostTasks
                (TaskCreate.mk_body (Given "a") Omitted Omitted Omitted Omitted)
                (mk_datetime 2024 1 2 3 4 5 0) 1%N)
         (mk_world (Some []) [])) in
  exists c,
    db w = Some c /\
    fst (list_tasks w)
    = Ok (map (fun d => Some (wire d)) (sort_desc "created_at" c)).
Proof.
  intros w.
  destruct (reachable_list_succeeds w) as (c & H1 & H2 & _).
  - unfold w. do 2 apply reachable_serve. apply reachable_empty.
  - by exists c.
Defined.

(** X7. With the handle unconfigured no request changes anything: the
    world after any request to a data route, whatever its id and body, is
    the world before. *)
Theorem unconfigured_world_is_fixed (w : world) (r : request) :
  db w = None -> serve r w = w.
Proof.
  intros Hdb. destruct r as [|b now o|task_id b now|task_id now|task_id]; simpl.
  - by rewrite (list_tasks_unconfigured w Hdb).
  - unfold post_tasks. destruct (TaskCreate.validate b); [done|].
    by rewrite (create_task_unconfigured w Hdb).
  - unfold patch_task. destruct (TaskUpdate.validate b); [done|].
    by rewrite (update_task_unconfigured w Hdb).
  - by rewrite (toggle_task_unconfigured w Hdb).
  - by rewrite (delete_task_unconfigured w Hdb).
Qed.

Lemma unconfigured_world_is_fixed_witness :
  serve (PostTasks
           (TaskCreate.mk_body (Given "a") Omitted Omitted Omitted Omitted)
           (mk_datetime 2024 1 2 3 4 5 0) 1%N)
    (mk_world None [])
  = mk_world None [].
Proof.
  exact (unconfigured_world_is_fixed (mk_world None []) _ eq_refl).
Defined.

(** ** Unique ids *)

Lemma ids_same_identity c c' : Forall2 same_identity c c' -> ids c' = ids c.
Proof.
  induction 1 as [|d d' r r' [Hid _] Hr IH]; simpl; [done|].
  by rewrite Hid, IH.
Qed.

Lemma fresh_id_not_in o c : lookup_id o c = None -> Some (VOid o) ∉ ids c.
Proof.
  intros H%lookup_id_None. unfold ids. intros Hin.
  apply list_elem_of_fmap in Hin as (d & Hd & Hin).
  rewrite Forall_forall in H. specialize (H d Hin).
  by apply bool_decide_eq_false in H.
Qed.

Lemma remove_first_unique o c : unique_ids c -> unique_ids (remove_first o c).2.
Proof.
  unfold unique_ids, ids. induction c as [|x r IH]; simpl; [done|].
  intros Hnd. apply NoDup_cons in Hnd as [Hx Hr].
  destruct (has_id o x); simpl; [done|].
  specialize (IH Hr). destruct (remove_first o r) as [n r'] eqn:E. simpl in *.
  apply NoDup_cons. split; [|done].
  intros Hin. apply Hx.
  apply list_elem_of_fmap in Hin as (d & Hd & Hin).
  apply list_elem_of_fmap. exists d. split; [done|].
  clear -E Hin. revert n r' E Hin.
  induction r as [|y r IH]; intros n r' E Hin; simpl in E.
  - injection E as <- <-. by apply elem_of_nil in Hin.
  - destruct (has_id o y).
    + injection E as <- <-. by apply elem_of_cons; right.
    + destruct (remove_first o r) as [m r''] eqn:E'. injection E as <- <-.
      apply elem_of_cons in Hin as [-> | Hin]; [by apply elem_of_cons; left|].
      apply elem_of_cons; right. by eapply IH.
Qed.

(** X8. Unique ids are kept: when no two stored records share an [_id]
    and the id the store assigns to a create is carried by no stored
    record, then after any request no two stored records share an [_id]. *)
Theorem serve_keeps_ids_unique (w : world) (c : list dict) (r : request) :
  db w = Some c ->
  unique_ids c ->
  (forall b now new_id, r = PostTasks b now new_id -> lookup_id new_id c = None) ->
  exists c', db (serve r w) = Some c' /\ unique_ids c'.
Proof.
  intros Hdb Hu Hfresh.
  destruct r as [|b now o|task_id b now|task_id now|task_id]; simpl.
  - exists c. by rewrite (list_tasks_run w c Hdb).
  - unfold post_tasks. destruct (TaskCreate.validate b) as [e|p]; [by exists c|].
    eexists. split; [by apply create_task_db|].
    unfold unique_ids, ids. rewrite map_app. simpl.
    apply NoDup_app. split; [done|]. split; [|apply NoDup_singleton].
    intros x Hx Hin. apply list_elem_of_singleton in Hin as ->.
    rewrite created_id in Hx. revert Hx. apply fresh_id_not_in.
    by eapply Hfresh.
  - unfold patch_task. destruct (TaskUpdate.validate b) as [e|p]; [by exists c|].
    destruct (update_task_identity task_id p now w c Hdb) as (c' & H & Hid).
    exists c'. split; [done|]. unfold unique_ids.
    by rewrite (ids_same_identity _ _ Hid).
  - destruct (toggle_task_identity task_id now w c Hdb) as (c' & H & Hid).
    exists c'. split; [done|]. unfold unique_ids.
    by rewrite (ids_same_identity _ _ Hid).
  - destruct (delete_task_db task_id w c Hdb) as [H | [o H]].
    + by exists c.
    + eexists. split; [exact H|]. by apply remove_first_unique.
Qed.

Lemma serve_keeps_ids_unique_witness :
  let d : dict := {["_id" := VOid 1%N]} in
  exists c',
    db (serve (PostTasks
                 (TaskCreate.mk_body (Given "a") Omitted Omitted Omitted Omitted)
                 (mk_datetime 2024 1 2 3 4 5 0) 2%N)
          (mk_world (Some [d]) [])) = Some c' /\
    unique_ids c'.
Proof.
  intros d.
  apply (serve_keeps_ids_unique (mk_world (Some [d]) []) [d]); [done| |].
  - unfold unique_ids, ids. simpl. apply NoDup_singleton.
  - intros b now new_id [= _ _ <-]. reflexivity.
Defined.

(** ** Serialization, again *)

Lemma iso_or_none_cases d k :
  (not_a_timestamp (get d k) = true /\ iso_or_none d k = Raise AttributeError) \/
  (not_a_timestamp (get d k) = false /\
   exists v, iso_or_none d k = Ok v /\ null_or_string v).
Proof.
  unfold iso_or_none, not_a_timestamp, null_or_string.
  destruct (get d k) as [|s|[]|t|o]; simpl;
    try destruct (String.eqb s ""); simpl;
    first [ left; by split
          | right; split; [done|]; eexists; split; [done|];
            first [ by left | right; by eexists ] ].
Qed.

Lemma iso_or_none_Ok d k v :
  iso_or_none d k = Ok v ->
  v = match get d k with VDate t => VStr (isoformat t) | _ => VNone end.
Proof.
  unfold iso_or_none.
  destruct (get d k) as [|s|[]|t|o]; simpl; try destruct (String.eqb s "");
    simpl; congruence.
Qed.

(** X9. [serialize_task] raises on a record exactly when the record is
    non-empty and one of [due_date], [created_at], [updated_at] holds a
    truthy value that is not a timestamp (a non-empty string, [True], an
    ObjectId), and what it raises is then the [AttributeError] of the
    missing [isoformat]. When it returns, a falsy value of any type in
    one of those fields (absent, null, the empty string, [False]) has
    become null and a timestamp its ISO-8601 string. *)
Theorem serialize_task_raises_iff (d : dict) :
  (forall e, serialize_task (Some d) = Raise e -> e = AttributeError) /\
  ((exists e, serialize_task (Some d) = Raise e) <->
   d ≠ ∅ /\
   (not_a_timestamp (get d "due_date") = true \/
    not_a_timestamp (get d "created_at") = true \/
    not_a_timestamp (get d "updated_at") = true)) /\
  (forall r k,
     d ≠ ∅ ->
     serialize_task (Some d) = Ok (Some r) ->
     k ∈ ["due_date"; "created_at"; "updated_at"] ->
     (truthy (get d k) = false -> r !! k = Some VNone) /\
     (forall t, get d k = VDate t -> r !! k = Some (VStr (isoformat t)))).
Proof.
  split; [|split].
  - unfold serialize_task. destruct (bool_decide (d = ∅)); [done|].
    destruct (iso_or_none_cases d "due_date") as [[_ ->] | [_ (v1 & -> & _)]];
      [by intros e [= <-]|].
    destruct (iso_or_none_cases d "created_at") as [[_ ->] | [_ (v2 & -> & _)]];
      [by intros e [= <-]|].
    destruct (iso_or_none_cases d "updated_at") as [[_ ->] | [_ (v3 & -> & _)]];
      [by intros e [= <-]|].
    done.
  - unfold serialize_task. destruct (bool_decide (d = ∅)) eqn:E.
    { apply bool_decide_eq_true in E. split; [by intros [e ?] | by intros [? _]]. }
    apply bool_decide_eq_false in E.
    destruct (iso_or_none_cases d "due_date") as [[H1 E1] | [H1 (v1 & E1 & _)]];
      rewrite E1, H1.
    { split; [auto | intros _; by eexists]. }
    destruct (iso_or_none_cases d "created_at") as [[H2 E2] | [H2 (v2 & E2 & _)]];
      rewrite E2, H2.
    { split; [auto | intros _; by eexists]. }
    destruct (iso_or_none_cases d "updated_at") as [[H3 E3] | [H3 (v3 & E3 & _)]];
      rewrite E3, H3.
    { split; [auto | intros _; by eexists]. }
    split; [by intros [e ?] | by intros [_ [|[|]]]].
  - intros r k Hne. unfold serialize_task.
    rewrite bool_decide_eq_false_2 by done.
    destruct (iso_or_none d "due_date") as [v1|] eqn:E1; [|done].
    destruct (iso_or_none d "created_at") as [v2|] eqn:E2; [|done].
    destruct (iso_or_none d "updated_at") as [v3|] eqn:E3; [|done].
    apply iso_or_none_Ok in E1, E2, E3. intros [= <-] Hk.
    match goal with
    | |- context [?m !! k] =>
        assert (m !! k
                = Some (match get d k with
                        | VDate t => VStr (isoformat t)
                        | _ => VNone
                        end)) as ->
    end.
    { apply elem_of_cons in Hk as [-> | Hk];
        [|apply elem_of_cons in Hk as [-> | Hk];
          [|apply list_elem_of_singleton in Hk as ->]];
        rewrite !lookup_insert_ne by done; rewrite lookup_insert_eq; congruence. }
    split.
    + by destruct (get d k).
    + by intros t ->.
Qed.

Lemma serialize_task_Ok_inv d r :
  d ≠ ∅ -> serialize_task (Some d) = Ok (Some r) ->
  exists due created updated,
    null_or_string due /\ null_or_string created /\ null_or_string updated /\
    r = list_to_map [
      ("id", VStr (str (get d "_id")));
      ("title", get d "title");
      ("notes", get d "notes");
      ("priority", get_or d "priority" (VStr "normal"));
      ("due_date", due);
      ("completed", VBool (truthy (get_or d "completed" (VBool false))));
      ("created_at", created);
      ("updated_at", updated)].
Proof.
  intros Hne. unfold serialize_task. rewrite bool_decide_eq_false_2 by done.
  destruct (iso_or_none_cases d "due_date") as [[_ ->] | [_ (v1 & -> & ?)]];
    [done|].
  destruct (iso_or_none_cases d "created_at") as [[_ ->] | [_ (v2 & -> & ?)]];
    [done|].
  destruct (iso_or_none_cases d "updated_at") as [[_ ->] | [_ (v3 & -> & ?)]];
    [done|].
  intros [= <-]. by exists v1, v2, v3.
Qed.

(** X10. Whenever [serialize_task] returns for a non-empty record, the
    returned dict has exactly the eight keys of the wire shape, its [id]
    is a string, its [completed] a boolean, and each of its three
    timestamps is null or a string. *)
Theorem serialize_task_wire_shape (d r : dict) :
  d ≠ ∅ ->
  serialize_task (Some d) = Ok (Some r) ->
  dom r = wire_keys /\
  (exists s, r !! "id" = Some (VStr s)) /\
  (exists b, r !! "completed" = Some (VBool b)) /\
  (exists v, r !! "due_date" = Some v /\ null_or_string v) /\
  (exists v, r !! "created_at" = Some v /\ null_or_string v) /\
  (exists v, r !! "updated_at" = Some v /\ null_or_string v).
Proof.
  intros Hne Hs.
  destruct (serialize_task_Ok_inv d r Hne Hs)
    as (due & created & updated & Hd & Hc & Hu & ->).
  simpl. split.
  { rewrite !dom_insert_L, dom_empty_L. unfold wire_keys. simpl. set_solver. }
  split; [eexists; by rewrite lookup_insert_eq|].
  split; [eexists; rewrite !lookup_insert_ne by done; apply lookup_insert_eq|].
  split; [|split].
  - exists due. split; [|done].
    rewrite !lookup_insert_ne by done. apply lookup_insert_eq.
  - exists created. split; [|done].
    rewrite !lookup_insert_ne by done. apply lookup_insert_eq.
  - exists updated. split; [|done].
    rewrite !lookup_insert_ne by done. apply lookup_insert_eq.
Qed.

Lemma serialize_task_wire_shape_witness :
  let d : dict := {["_id" := VOid 1%N]} in
  dom (wire d) = wire_keys.
Proof.
  intros d.
  apply (serialize_task_wire_shape d (wire d)); [done|].
  apply serialize_task_wire; [done|]. by repeat split.
Defined.

(** ** What update and toggle answer *)

(** X11. The answer of a successful PATCH is the serialization of the
    record as stored by it: [updated_at] is the ISO-8601 string of the
    clock reading; a supplied title, notes or priority comes back as
    supplied, an explicit null as null (also for priority: the "normal"
    default is for an absent key only); [completed] is the truth value of
    what is stored; [id] and [created_at] are those of the record before. *)
Theorem update_answers_stored_record (w : world) (c : list dict)
    (task_id : string) (o : oid) (d : dict) (b : TaskUpdate.body)
    (p : TaskUpdate.t) (now : datetime) :
  db w = Some c ->
  ObjectId task_id = Some o ->
  lookup_id o c = Some d ->
  timestamp_ok d "due_date" ->
  timestamp_ok d "created_at" ->
  TaskUpdate.validate b = inr p ->
  p ≠ TaskUpdate.mk unset unset unset unset unset ->
  exists (d' r : dict),
    fst (patch_task task_id b now w) = Ok (Some r) /\
    (exists c', db (snd (patch_task task_id b now w)) = Some c' /\
                lookup_id o c' = Some d') /\
    serialize_task (Some d') = Ok (Some r) /\
    r !! "updated_at" = Some (VStr (isoformat now)) /\
    r !! "title"
    = Some (default VNone (applied VStr (TaskUpdate.title p) (d !! "title"))) /\
    r !! "notes"
    = Some (default VNone (applied VStr (TaskUpdate.notes p) (d !! "notes"))) /\
    r !! "priority"
    = Some (default (VStr "normal")
              (applied VStr (TaskUpdate.priority p) (d !! "priority"))) /\
    r !! "completed"
    = Some (VBool (from_option truthy false
                     (applied VBool (TaskUpdate.completed p)
                        (d !! "completed")))) /\
    r !! "id" = wire d !! "id" /\
    r !! "created_at" = wire d !! "created_at" /\
    (TaskUpdate.priority p = set None -> r !! "priority" = Some VNone).
Proof.
  intros Hdb Hid Hd Hdue Hcr Hv Hp.
  assert (TaskUpdate.model_dump_exclude_unset p ≠ ∅) as Hne.
  { intros He. by apply model_dump_empty_iff in He. }
  destruct (set_first_found o (updates_of p now) c d (updates_of_id p now) Hd)
    as (c' & Hs & Hl & _).
  destruct (update_task_run w c task_id o d p now Hdb Hid Hd Hne)
    as (c'' & Hs' & Hrun).
  rewrite Hs in Hs'. injection Hs' as <-.
  set (d' := updates_of p now ∪ d) in *.
  assert (serialize_task (Some d') = Ok (Some (wire d'))) as Hser.
  { apply serialize_task_wire;
      [apply updated_nonempty | by apply update_timestamps_ok]. }
  assert (d' !! "priority"
          = applied VStr (TaskUpdate.priority p) (d !! "priority")) as Hprio.
  { apply updated_field; [done | apply model_dump_priority]. }
  exists d', (wire d').
  unfold patch_task. rewrite Hv, Hrun. cbn [fst snd db].
  split; [done|]. split; [by exists c'|]. split; [done|].
  split.
  { rewrite wire_updated_at. unfold wire_timestamp, d'.
    by rewrite updated_updated_at. }
  split.
  { rewrite wire_title. unfold get, d'.
    by rewrite (updated_field VStr (TaskUpdate.title p))
      by (done || apply model_dump_title). }
  split.
  { rewrite wire_notes. unfold get, d'.
    by rewrite (updated_field VStr (TaskUpdate.notes p))
      by (done || apply model_dump_notes). }
  split; [rewrite wire_priority; unfold get_or; by rewrite Hprio|].
  split.
  { rewrite wire_completed. unfold get_or, d'.
    rewrite (updated_field VBool (TaskUpdate.completed p))
      by (done || apply model_dump_completed).
    destruct (applied VBool (TaskUpdate.completed p) (d !! "completed"));
      reflexivity. }
  split.
  { rewrite !wire_id. unfold get, d'. rewrite updated_other; [done..|].
    unfold update_fields. rewrite !not_elem_of_cons.
    repeat split; try done. apply not_elem_of_nil. }
  split.
  { rewrite !wire_created_at. unfold wire_timestamp, d'.
    rewrite updated_other; [done..|].
    unfold update_fields. rewrite !not_elem_of_cons.
    repeat split; try done. apply not_elem_of_nil. }
  intros Hnull. rewrite wire_priority. unfold get_or.
  by rewrite Hprio, Hnull.
Qed.

Lemma update_answers_stored_record_witness :
  let d : dict := {["_id" := VOid 256%N; "priority" := VStr "high"]} in
  let w := mk_world (Some [d]) [] in
  let b := TaskUpdate.mk_body Omitted Omitted Null Omitted Omitted in
  exists r : dict,
    fst (patch_task "000000000000000000000100" b
           (mk_datetime 2024 1 2 3 4 5 0) w) = Ok (Some r) /\
    r !! "priority" = Some VNone /\
    r !! "updated_at" = Some (VStr "2024-01-02T03:04:05").
Proof.
  intros d w b.
  destruct (update_answers_stored_record w [d] "000000000000000000000100"
              256%N d b (TaskUpdate.mk unset unset (set None) unset unset)
              (mk_datetime 2024 1 2 3 4 5 0)
              eq_refl eq_refl eq_refl I I eq_refl)
    as (d' & r & Hrun & _ & _ & Hu & _ & _ & _ & _ & _ & _ & Hp);
    [discriminate|].
  exists r. split; [exact Hrun|]. split; [by apply Hp | exact Hu].
Defined.

(** X12. The answer of a toggle of a stored task with well-formed
    timestamps is the serialization of the toggled record: [completed] is
    the negation of the truth value stored before, [updated_at] the
    ISO-8601 string of the clock reading, and the other six fields are as
    the record serialized before. *)
Theorem toggle_answers_toggled_record (w : world) (c : list dict)
    (task_id : string) (o : oid) (d : dict) (now : datetime) :
  db w = Some c ->
  ObjectId task_id = Some o ->
  lookup_id o c = Some d ->
  timestamp_ok d "due_date" ->
  timestamp_ok d "created_at" ->
  exists r : dict,
    fst (toggle_task task_id now w) = Ok (Some r) /\
    r !! "completed"
    = Some (VBool (negb (truthy (default (VBool false) (d !! "completed"))))) /\
    r !! "updated_at" = Some (VStr (isoformat now)) /\
    (forall k, k ∈ ["id"; "title"; "notes"; "priority"; "due_date"; "created_at"] ->
               r !! k = wire d !! k).
Proof.
  intros Hdb Hid Hd Hdue Hcr.
  destruct (toggle_task_run w c task_id o d now Hdb Hid Hd)
    as (c' & _ & _ & Hrun).
  set (d' := toggle_updates d now ∪ d) in *.
  assert (forall k, k ≠ "completed" -> k ≠ "updated_at" -> d' !! k = d !! k)
    as Hother by (intros k ? ?; by apply toggled_other).
  assert (timestamps_ok d') as Hts.
  { unfold timestamps_ok, timestamp_ok.
    rewrite !Hother by done. unfold d'. by rewrite toggled_updated_at. }
  assert (d' ≠ ∅) as Hne.
  { intros He. pose proof (toggled_updated_at d now) as Hu. fold d' in Hu.
    rewrite He in Hu. by rewrite lookup_empty in Hu. }
  exists (wire d'). rewrite Hrun. cbn [fst].
  split; [by apply serialize_task_wire|].
  split.
  { rewrite wire_completed. unfold get_or, d'. by rewrite toggled_completed. }
  split.
  { rewrite wire_updated_at. unfold wire_timestamp, d'.
    by rewrite toggled_updated_at. }
  intros k Hk. rewrite !elem_of_cons in Hk.
  destruct Hk as [-> | [-> | [-> | [-> | [-> | [-> | Hk]]]]]];
    [| | | | | | by apply elem_of_nil in Hk].
  - rewrite !wire_id. unfold get. by rewrite Hother.
  - rewrite !wire_title. unfold get. by rewrite Hother.
  - rewrite !wire_notes. unfold get. by rewrite Hother.
  - rewrite !wire_priority. unfold get_or. by rewrite Hother.
  - rewrite !wire_due_date. unfold wire_timestamp. by rewrite Hother.
  - rewrite !wire_created_at. unfold wire_timestamp. by rewrite Hother.
Qed.

Lemma toggle_answers_toggled_record_witness :
  let d : dict := {["_id" := VOid 256%N]} in
  exists r : dict,
    fst (toggle_task "000000000000000000000100"
           (mk_datetime 2024 1 2 3 4 5 0) (mk_world (Some [d]) []))
    = Ok (Some r) /\
    r !! "completed" = Some (VBool true).
Proof.
  intros d.
  destruct (toggle_answers_toggled_record (mk_world (Some [d]) []) [d]
              "000000000000000000000100" 256%N d
              (mk_datetime 2024 1 2 3 4 5 0) eq_refl eq_refl eq_refl I I)
    as (r & Hrun & Hc & _).
  exists r. split; [exact Hrun | exact Hc].
Defined.

(** ** Repeating a PATCH *)

Lemma update_task_db task_id o p now w c :
  db w = Some c ->
  ObjectId task_id = Some o ->
  TaskUpdate.model_dump_exclude_unset p ≠ ∅ ->
  db (snd (update_task task_id p now w))
  = Some (set_first o (updates_of p now) c).2.
Proof.
  intros Hdb Hid Hne. unfold update_task.
  rewrite (bind_ok _ _ _ _ _ (run_read_db w)), Hdb, Hid.
  rewrite bool_decide_eq_false_2 by done. fold (updates_of p now).
  erewrite bind_ok by (by apply run_update_one).
  destruct (_ =? _)%nat; [done|].
  by erewrite bind_ok by (by apply run_find_one).
Qed.

Lemma updates_of_absorb p now1 now2 (d : dict) :
  updates_of p now2 ∪ (updates_of p now1 ∪ d) = updates_of p now2 ∪ d.
Proof.
  apply map_eq. intros k. rewrite !lookup_union.
  destruct (decide (k = "updated_at")) as [->|Hk].
  - unfold updates_of. rewrite !lookup_insert_eq. by destruct (d !! _).
  - rewrite !updates_of_lookup by done.
    by destruct (TaskUpdate.model_dump_exclude_unset p !! k), (d !! k).
Qed.

Lemma set_first_twice o (u1 u2 : dict) c :
  u1 !! "_id" = None ->
  (forall d : dict, u2 ∪ (u1 ∪ d) = u2 ∪ d) ->
  (set_first o u2 (set_first o u1 c).2).2 = (set_first o u2 c).2.
Proof.
  intros Hid Habs. induction c as [|x r IH]; simpl; [done|].
  destruct (has_id o x) eqn:E; simpl.
  - by rewrite has_id_union, E, Habs.
  - destruct (set_first o u1 r) as [n1 r1]. simpl in *. rewrite E.
    destruct (set_first o u2 r1) as [n2 r2].
    destruct (set_first o u2 r) as [n3 r3]. simpl in *. by rewrite IH.
Qed.

(** X13. Sending the same PATCH a second time changes nothing but
    [updated_at]: the collection after the two requests is the collection
    after the second one alone, whatever the world, the id and the body. *)
Theorem repeated_patch_only_redates (w : world) (task_id : string)
    (b : TaskUpdate.body) (now1 now2 : datetime) :
  db (snd (patch_task task_id b now2 (snd (patch_task task_id b now1 w))))
  = db (snd (patch_task task_id b now2 w)).
Proof.
  unfold patch_task. destruct (TaskUpdate.validate b) as [e|p]; [done|].
  destruct (db w) as [c|] eqn:Hdb;
    [|by rewrite !(update_task_unconfigured w Hdb)].
  destruct (ObjectId task_id) as [o|] eqn:Hid;
    [|by rewrite !(update_task_malformed w c task_id Hdb Hid)].
  destruct (decide (TaskUpdate.model_dump_exclude_unset p = ∅)) as [He|Hne].
  { by rewrite !(update_task_no_fields w c task_id o p _ Hdb Hid He). }
  rewrite (update_task_db task_id o p now2 w c Hdb Hid Hne).
  rewrite (update_task_db task_id o p now2 _ _
             (update_task_db task_id o p now1 w c Hdb Hid Hne) Hid Hne).
  f_equal. apply set_first_twice; [apply updates_of_id|].
  intros d. apply updates_of_absorb.
Qed.

(** ** Using what create returned *)

Lemma remove_first_app_new o c d :
  lookup_id o c = None -> has_id o d = true ->
  remove_first o (c ++ [d]) = (1%nat, c).
Proof.
  intros Hc Hd. induction c as [|x r IH]; simpl in *.
  - by rewrite Hd.
  - destruct (has_id o x); [done|]. by rewrite (IH Hc).
Qed.

(** X14. The [id] in the answer of a create is a string that [ObjectId]
    parses back to the id the store assigned, and it addresses the new
    record: a toggle under it answers that record with [completed] true,
    and a delete under it succeeds and leaves the collection as it was
    before the create. *)
Theorem created_id_resolves (w : world) (c : list dict)
    (b : TaskCreate.body) (p : TaskCreate.t) (now : datetime) (new_id : oid) :
  db w = Some c ->
  TaskCreate.validate b = inr p ->
  lookup_id new_id c = None ->
  (new_id < 2 ^ 96)%N ->
  exists (s : string) (r : dict) (w1 : world),
    post_tasks b now new_id w = (Ok (Some r), w1) /\
    r !! "id" = Some (VStr s) /\
    ObjectId s = Some new_id /\
    (forall now',
       exists r' : dict,
         fst (toggle_task s now' w1) = Ok (Some r') /\
         r' !! "id" = Some (VStr s) /\
         r' !! "completed" = Some (VBool true)) /\
    delete_task s w1
    = (Ok tt, mk_world (Some c) (DeleteOne new_id :: calls w1)).
Proof.
  intros Hdb Hv Hfresh Hlt.
  set (d := created_doc p now new_id).
  pose proof (ObjectId_oid_str new_id Hlt) as Hid.
  pose proof (has_id_created p now new_id) as Hhas. fold d in Hhas.
  eexists (oid_str new_id), (wire d), _.
  split.
  { unfold post_tasks. rewrite Hv. by apply create_task_run. }
  split.
  { rewrite wire_id. unfold get, d. by rewrite created_id. }
  split; [done|]. split.
  - intros now'.
    destruct (toggle_task_run
                (mk_world (Some (c ++ [d]))
                   (FindOne new_id :: InsertOne d :: calls w))
                (c ++ [d]) (oid_str new_id) new_id d now' eq_refl Hid
                (lookup_id_app_new _ _ _ Hfresh Hhas)) as (c' & _ & _ & Hrun).
    fold d. rewrite Hrun. cbn [fst].
    set (d' := toggle_updates d now' ∪ d).
    assert (forall k, k ≠ "completed" -> k ≠ "updated_at" -> d' !! k = d !! k)
      as Hother by (intros k ? ?; by apply toggled_other).
    exists (wire d'). split.
    { apply serialize_task_wire.
      - intros He. pose proof (toggled_updated_at d now') as Hu. fold d' in Hu.
        rewrite He in Hu. by rewrite lookup_empty in Hu.
      - unfold timestamps_ok, timestamp_ok. rewrite !Hother by done.
        unfold d'. rewrite toggled_updated_at. unfold d.
        rewrite created_due_date, created_created_at.
        by destruct (TaskCreate.due_date p). }
    split.
    { rewrite wire_id. unfold get. rewrite Hother by done.
      unfold d. by rewrite created_id. }
    rewrite wire_completed. unfold get_or, d'. rewrite toggled_completed.
    unfold completed_of, get_or, d. by rewrite created_completed.
  - erewrite delete_task_run; [|done|exact Hid]. fold d.
    by rewrite (remove_first_app_new _ _ _ Hfresh Hhas).
Qed.

Lemma created_id_resolves_witness :
  let w := mk_world (Some []) [] in
  let b := TaskCreate.mk_body (Given "a") Omitted Omitted Omitted Omitted in
  exists (s : string) (r : dict) (w1 : world),
    post_tasks b (mk_datetime 2024 1 2 3 4 5 0) 255%N w = (Ok (Some r), w1) /\
    r !! "id" = Some (VStr s) /\
    ObjectId s = Some 255%N /\
    db (snd (delete_task s w1)) = Some [].
Proof.
  intros w b.
  destruct (created_id_resolves w [] b (TaskCreate.mk "a" None "normal" None)
              (mk_datetime 2024 1 2 3 4 5 0) 255%N
              eq_refl eq_refl eq_refl eq_refl)
    as (s & r & w1 & Hrun & Hr & Hs & _ & Hdel).
  exists s, r, w1. rewrite Hdel. repeat split; assumption.
Defined.

(** X15. After a create on a store of data-model records, list answers
    one task more than the store held before, and the answer of the create
    is among them. *)
Theorem created_task_is_listed (w : world) (c : list dict)
    (b : TaskCreate.body) (p : TaskCreate.t) (now : datetime) (new_id : oid) :
  db w = Some c ->
  Forall record_ok c ->
  TaskCreate.validate b = inr p ->
  lookup_id new_id c = None ->
  (new_id < 2 ^ 96)%N ->
  exists (r : dict) (w1 : world) (rs : list (option dict)),
    post_tasks b now new_id w = (Ok (Some r), w1) /\
    fst (list_tasks w1) = Ok rs /\
    Some r ∈ rs /\
    length rs = S (length c).
Proof.
  intros Hdb Hok Hv Hfresh Hlt.
  set (d := created_doc p now new_id).
  eexists (wire d), _, (map (fun x => Some (wire x))
                          (sort_desc "created_at" (c ++ [d]))).
  split.
  { unfold post_tasks. rewrite Hv. by apply create_task_run. }
  split.
  { erewrite list_tasks_run by reflexivity. cbn [fst].
    apply serialize_all_wire. rewrite sort_desc_Permutation.
    apply Forall_app. split; [done|].
    constructor; [apply created_record_ok | constructor]. }
  split.
  - apply (list_elem_of_fmap_2 (fun x => Some (wire x))).
    rewrite sort_desc_Permutation. apply elem_of_app. right.
    apply elem_of_cons. by left.
  - rewrite length_map, sort_desc_Permutation, length_app. simpl. lia.
Qed.

Lemma created_task_is_listed_witness :
  let w := mk_world (Some []) [] in
  let b := TaskCreate.mk_body (Given "a") Omitted Omitted Omitted Omitted in
  exists (r : dict) (w1 : world) (rs : list (option dict)),
    post_tasks b (mk_datetime 2024 1 2 3 4 5 0) 255%N w = (Ok (Some r), w1) /\
    fst (list_tasks w1) = Ok rs /\
    Some r ∈ rs /\
    length rs = 1%nat.
Proof.
  intros w b.
  exact (created_task_is_listed w [] b (TaskCreate.mk "a" None "normal" None)
           (mk_datetime 2024 1 2 3 4 5 0) 255%N
           eq_refl (List.Forall_nil record_ok) eq_refl eq_refl eq_refl).
Defined.

(** ** What validation accepts *)

Lemma check_length_None lo hi s :
  check_length lo (Some hi) s = None <-> (lo <= String.length s <= hi)%nat.
Proof.
  unfold check_length.
  destruct (Nat.ltb_spec (String.length s) lo); [split; [done | lia]|].
  destruct (Nat.ltb_spec hi (String.length s)); split; try done; lia.
Qed.

Lemma check_length_unbounded s : check_length 0 None s = None.
Proof. reflexivity. Qed.

Lemma optional_str_accepts lo hi x f :
  optional_str lo (Some hi) x = inr f <-> accepts_str lo hi x f.
Proof.
  destruct x as [| |s|]; simpl; try (split; congruence); [|split; done].
  destruct (check_length lo (Some hi) s) eqn:E.
  - split; [done|]. intros [H%check_length_None _]. congruence.
  - apply check_length_None in E. split; [intros [= <-]; done|].
    by intros [_ ->].
Qed.

Lemma optional_str_unbounded_accepts x f :
  optional_str 0 None x = inr f <-> accepts_any x f.
Proof. destruct x; simpl; split; congruence || done. Qed.

Lemma optional_any_accepts {T} (x : field_input T) f :
  optional_any x = inr f <-> accepts_any x f.
Proof. destruct x; simpl; split; congruence || done. Qed.

Lemma update_validate_inr b p :
  TaskUpdate.validate b = inr p <->
  optional_str 1 (Some 200%nat) (TaskUpdate.b_title b) = inr (TaskUpdate.title p) /\
  optional_str 0 (Some 2000%nat) (TaskUpdate.b_notes b) = inr (TaskUpdate.notes p) /\
  optional_str 0 None (TaskUpdate.b_priority b) = inr (TaskUpdate.priority p) /\
  optional_any (TaskUpdate.b_due_date b) = inr (TaskUpdate.due_date p) /\
  optional_any (TaskUpdate.b_completed b) = inr (TaskUpdate.completed p).
Proof.
  unfold TaskUpdate.validate. destruct p as [t n pr du co]. simpl.
  destruct (optional_str 1 _ _), (optional_str 0 (Some _) _),
    (optional_str 0 None _), (optional_any (TaskUpdate.b_due_date b)),
    (optional_any (TaskUpdate.b_completed b));
    split; try done; try (intros (?&?&?&?&?); done);
    try (intros [= -> -> -> -> ->]; done).
  intros ([= ->] & [= ->] & [= ->] & [= ->] & [= ->]). done.
Qed.

(** X16. A PATCH body is accepted exactly when every field is omitted,
    null, or a value of its type that fits: a title of 1 to 200
    characters, notes of at most 2000 characters, any string as priority,
    any timestamp as due date, any boolean as completed. The accepted
    payload records each field as unset, null or that value. *)
Theorem update_validation_accepts_iff (b : TaskUpdate.body) (p : TaskUpdate.t) :
  TaskUpdate.validate b = inr p <->
  accepts_str 1 200 (TaskUpdate.b_title b) (TaskUpdate.title p) /\
  accepts_str 0 2000 (TaskUpdate.b_notes b) (TaskUpdate.notes p) /\
  accepts_any (TaskUpdate.b_priority b) (TaskUpdate.priority p) /\
  accepts_any (TaskUpdate.b_due_date b) (TaskUpdate.due_date p) /\
  accepts_any (TaskUpdate.b_completed b) (TaskUpdate.completed p).
Proof.
  rewrite update_validate_inr, !optional_str_accepts,
    optional_str_unbounded_accepts, !optional_any_accepts. done.
Qed.

Lemma required_title_accepts x s :
  required_str None 1 (Some 200%nat) x = inr s <->
  x = Given s /\ (1 <= String.length s <= 200)%nat.
Proof.
  destruct x as [| |y|]; simpl; try (split; [done | by intros [? _]]).
  destruct (check_length 1 (Some 200%nat) y) eqn:E.
  - split; [done|]. intros [[= ->] H%check_length_None]. congruence.
  - apply check_length_None in E. split; [by intros [= <-]|].
    by intros [[= ->] _].
Qed.

Lemma required_priority_accepts x s :
  required_str (Some "normal") 0 None x = inr s <->
  match x with
  | Omitted => s = "normal"
  | Given y => s = y
  | Null | IllTyped => False
  end.
Proof. destruct x; simpl; split; congruence || done. Qed.

Lemma create_validate_inr b p :
  TaskCreate.validate b = inr p <->
  required_str None 1 (Some 200%nat) (TaskCreate.b_title b)
  = inr (TaskCreate.title p) /\
  (exists f, optional_str 0 (Some 2000%nat) (TaskCreate.b_notes b) = inr f /\
             TaskCreate.notes p = field_value f) /\
  required_str (Some "normal") 0 None (TaskCreate.b_priority b)
  = inr (TaskCreate.priority p) /\
  (exists f, optional_any (TaskCreate.b_due_date b) = inr f /\
             TaskCreate.due_date p = field_value f).
Proof.
  unfold TaskCreate.validate. destruct p as [t n pr du]. simpl.
  destruct (required_str None 1 _ _), (optional_str 0 (Some _) _),
    (required_str (Some _) 0 None _), (optional_any (TaskCreate.b_due_date b));
    split; try done;
    try (intros (? & (? & ? & ?) & ? & (? & ? & ?)); done).
  - intros [= <- <- <- <-]. eauto 8.
  - intros ([= ->] & (? & [= <-] & ->) & [= ->] & (? & [= <-] & ->)). done.
Qed.

(** X17. A create body is accepted exactly when its title is a string of
    1 to 200 characters, its notes are omitted, null or a string of at
    most 2000 characters, its priority is omitted or any string, and its
    due date is omitted, null or a timestamp. The payload then holds the
    title and the given notes and due date; an omitted priority is
    "normal"; a null title or priority is refused. *)
Theorem create_validation_accepts_iff (b : TaskCreate.body) (p : TaskCreate.t) :
  TaskCreate.validate b = inr p <->
  (TaskCreate.b_title b = Given (TaskCreate.title p) /\
   (1 <= String.length (TaskCreate.title p) <= 200)%nat) /\
  (exists f, accepts_str 0 2000 (TaskCreate.b_notes b) f /\
             TaskCreate.notes p = field_value f) /\
  match TaskCreate.b_priority b with
  | Omitted => TaskCreate.priority p = "normal"
  | Given y => TaskCreate.priority p = y
  | Null | IllTyped => False
  end /\
  (exists f, accepts_any (TaskCreate.b_due_date b) f /\
             TaskCreate.due_date p = field_value f).
Proof.
  rewrite create_validate_inr, required_title_accepts,
    required_priority_accepts.
  split; intros (Ht & (fn & Hn & Hn') & Hp & (fd & Hd & Hd'));
    (split; [done|]); (split; [exists fn; split; [|done]|]);
    try (split; [done|]; exists fd; split; [|done]).
  - by apply optional_str_accepts.
  - by apply optional_any_accepts.
  - by apply optional_str_accepts.
  - by apply optional_any_accepts.
Qed.

(** ** The ObjectId validator *)

Lemma length_append (a b : string) :
  String.length (a ++ b)%string = (String.length a + String.length b)%nat.
Proof. induction a as [|c a IH]; simpl; [done | by rewrite IH]. Qed.

Lemma length_pad n x : String.length (pad n x) = n.
Proof. unfold pad. rewrite length_digits. simpl. lia. Qed.

Lemma length_isoformat_sep sep t :
  String.length (isoformat_sep sep t)
  = (18 + String.length sep
     + if (microsecond t =? 0)%Z then 0 else 7)%nat.
Proof.
  unfold isoformat_sep. rewrite !length_append, !length_pad.
  destruct (microsecond t =? 0)%Z; simpl; rewrite ?length_append, ?length_pad;
    simpl; lia.
Qed.

Lemma ObjectId_of_datetime t : ObjectId (str (VDate t)) = None.
Proof.
  unfold ObjectId. simpl str. rewrite length_isoformat_sep.
  by destruct (microsecond t =? 0)%Z.
Qed.

Lemma hex_value_lt c d : hex_value c = Some d -> (d < 16)%N.
Proof.
  unfold hex_value.
  destruct (N.leb_spec 48 (N_of_ascii c)), (N.leb_spec (N_of_ascii c) 57);
    simpl; try (intros [= <-]; lia);
    destruct (N.leb_spec 97 (N_of_ascii c)), (N.leb_spec (N_of_ascii c) 102);
    simpl; try (intros [= <-]; lia);
    destruct (N.leb_spec 65 (N_of_ascii c)), (N.leb_spec (N_of_ascii c) 70);
    simpl; try (intros [= <-]; lia); done.
Qed.

Lemma hex_not_space c d : hex_value c = Some d -> is_space c = false.
Proof.
  unfold hex_value, is_space.
  destruct (N.leb_spec 48 (N_of_ascii c)), (N.leb_spec (N_of_ascii c) 57),
    (N.leb_spec 97 (N_of_ascii c)), (N.leb_spec (N_of_ascii c) 102),
    (N.leb_spec 65 (N_of_ascii c)), (N.leb_spec (N_of_ascii c) 70);
    simpl; try done; intros _;
    destruct (N.eqb_spec (N_of_ascii c) 32), (N.leb_spec 9 (N_of_ascii c)),
      (N.leb_spec (N_of_ascii c) 13); simpl; try done; lia.
Qed.

Lemma bytes_value_lt bs :
  Forall (fun b => (b < 256)%N) bs ->
  (bytes_value bs < 256 ^ N.of_nat (length bs))%N.
Proof.
  induction bs as [|b bs IH] using rev_ind; [intros _; reflexivity|].
  intros [Hbs Hb%Forall_inv]%Forall_app.
  rewrite bytes_value_snoc, length_app. simpl length.
  replace (N.of_nat (length bs + 1)) with (N.succ (N.of_nat (length bs))) by lia.
  rewrite N.pow_succ_r'. specialize (IH Hbs). lia.
Qed.

(** A string of hexadecimal digits of even length gives half as many
    bytes. *)
Lemma fromhex_all_hex s :
  (all_hex s = true -> Nat.Even (String.length s) ->
   exists bs, fromhex s = Some bs /\
              (2 * length bs = String.length s)%nat /\
              Forall (fun b => (b < 256)%N) bs) /\
  (forall c, all_hex (String c s) = true ->
     Nat.Even (String.length (String c s)) ->
     exists bs, fromhex (String c s) = Some bs /\
                (2 * length bs = String.length (String c s))%nat /\
                Forall (fun b => (b < 256)%N) bs).
Proof.
  induction s as [|a s [IH1 IH2]].
  - split; [intros _ _; by exists []|].
    intros c _ [n Hn]. simpl in Hn. lia.
  - split; [exact (IH2 a)|]. intros c. cbn [all_hex String.length].
    intros [Hc [Ha Hs]%andb_true_iff]%andb_true_iff Hev.
    apply bool_decide_eq_true_1 in Hc as [top Et].
    apply bool_decide_eq_true_1 in Ha as [bot Eb].
    assert (Nat.Even (String.length s)) as Hev'.
    { destruct Hev as [n Hn]. exists (n - 1)%nat. lia. }
    destruct IH1 as (bs & Hbs & Hlen & Hlt); [done|done|].
    exists ((16 * top + bot)%N :: bs). cbn [fromhex].
    rewrite (hex_not_space c top Et), Et, Eb, Hbs. simpl.
    split; [done|]. split; [lia|]. constructor; [|done].
    apply hex_value_lt in Et, Eb. lia.
Qed.

Lemma ObjectId_all_hex s :
  String.length s = 24%nat -> all_hex s = true ->
  exists o, ObjectId s = Some o /\ (o < 2 ^ 96)%N.
Proof.
  intros Hlen Hhex.
  destruct (proj1 (fromhex_all_hex s) Hhex) as (bs & Hbs & Hl & Hlt).
  { exists 12%nat. lia. }
  assert (length bs = 12%nat) as Hl12 by lia.
  exists (oid_of_bytes bs). unfold ObjectId. rewrite Hlen, Hbs. simpl.
  split; [done|]. unfold oid_of_bytes. rewrite Hl12.
  pose proof (bytes_value_lt bs Hlt) as Hv. rewrite Hl12 in Hv.
  replace (256 ^ N.of_nat 12)%N with (2 ^ 96)%N in Hv by reflexivity.
  replace (12 - N.of_nat 12)%N with 0%N by reflexivity. lia.
Qed.

(** X18. [PyObjectId.validate] returns an ObjectId as it is. Any other
    value, here [None], a string, a boolean or a timestamp, is accepted
    exactly when [ObjectId] accepts its [str]: a string then has 24
    characters, all of them hexadecimal digits or white space; every string
    of 24 hexadecimal digits is accepted and gives a twelve-byte id; [None],
    booleans and timestamps are refused. Every refusal is the "Invalid
    ObjectId" error. The string form of any twelve-byte id validates back
    to that id. *)
Theorem PyObjectId_validate_accepts (v : value) :
  (forall o,
     PyObjectId.validate v = inr o <->
     v = VOid o \/ ((forall o', v <> VOid o') /\ ObjectId (str v) = Some o)) /\
  (forall msg, PyObjectId.validate v = inl msg -> msg = "Invalid ObjectId") /\
  (v = VNone \/ (exists b, v = VBool b) \/ (exists t, v = VDate t) ->
   PyObjectId.validate v = inl "Invalid ObjectId") /\
  (forall s o,
     PyObjectId.validate (VStr s) = inr o ->
     String.length s = 24%nat /\ all_hex_or_space s = true) /\
  (forall s,
     String.length s = 24%nat -> all_hex s = true ->
     exists o, PyObjectId.validate (VStr s) = inr o /\ (o < 2 ^ 96)%N) /\
  (forall o, (o < 2 ^ 96)%N -> PyObjectId.validate (VStr (str (VOid o))) = inr o).
Proof.
  split; [|split; [|split; [|split; [|split]]]].
  - intros o. unfold PyObjectId.validate.
    destruct v as [|s|b|t|o'].
    + split; [done|]. by intros [? | [_ ?]].
    + destruct (ObjectId (str (VStr s))) as [o'|] eqn:E.
      * split; [intros [= <-]; right; by split|].
        intros [? | [_ [= ->]]]; done.
      * split; [done|]. by intros [? | [_ ?]].
    + split; [by destruct b|]. intros [? | [_ H]]; [done|]. by destruct b.
    + rewrite ObjectId_of_datetime. split; [done|]. by intros [? | [_ ?]].
    + split; [intros [= <-]; by left|].
      intros [[= <-] | [H _]]; [done|]. by destruct (H o').
  - intros msg. unfold PyObjectId.validate.
    destruct v as [|s|[]|t|o']; try done;
      destruct (ObjectId _); by intros [= <-] || done.
  - unfold PyObjectId.validate.
    intros [-> | [[[] ->] | [t ->]]]; try done. by rewrite ObjectId_of_datetime.
  - intros s o. unfold PyObjectId.validate. simpl str.
    destruct (ObjectId s) as [o'|] eqn:E; [|done]. intros _.
    split; [by eapply ObjectId_length|].
    unfold ObjectId in E. destruct (Nat.eqb (String.length s) 24); [|done].
    destruct (fromhex s) as [bs|] eqn:Eb; [|done].
    by eapply (proj1 (fromhex_chars s)).
  - intros s Hlen Hhex.
    destruct (ObjectId_all_hex s Hlen Hhex) as (o & Ho & Hlt).
    exists o. unfold PyObjectId.validate. simpl str. by rewrite Ho.
  - intros o Ho. unfold PyObjectId.validate. simpl str.
    by rewrite (ObjectId_oid_str o Ho).
Qed.

Lemma PyObjectId_validate_accepts_witness :
  PyObjectId.validate (VStr (str (VOid 255%N))) = inr 255%N.
Proof.
  exact (proj2 (proj2 (proj2 (proj2 (proj2 (PyObjectId_validate_accepts VNone)))))
           255%N eq_refl).
Defined.

(** ** The diagnostic endpoint *)

Ltac diag_lookup :=
  repeat first [ rewrite lookup_insert_eq | rewrite lookup_insert_ne by done ].

Lemma length_substring n s :
  String.length (substring 0 n s) = Nat.min n (String.length s).
Proof.
  revert s. induction n as [|n IH]; intros [|c s]; simpl; try done.
  by rewrite IH.
Qed.

(** X19. Whatever the handle and the store do, the diagnostic response
    has the same six keys, [backend] is "✅ Running", [connection_status]
    tells whether the handle is configured, and [database_url] and
    [database_name] tell only whether the environment variables
    [DATABASE_URL] and [DATABASE_NAME] are set to a non-empty value: the
    handle's own name and the "Configured" mark never reach the answer. *)
Theorem diagnostics_report_environment (w : world) (name : option string)
    (listing : string + list string) (getenv : string -> option string) :
  let r := test_database w name listing getenv in
  dom r = list_to_set ["backend"; "database"; "database_url"; "database_name";
                       "connection_status"; "collections"] /\
  r !! "backend" = Some (DStr "✅ Running") /\
  r !! "connection_status"
  = Some (DStr (match db w with
                | Some _ => "Connected"
                | None => "Not Connected"
                end)) /\
  r !! "database_url"
  = Some (DStr (if env_set (getenv "DATABASE_URL")
                then "✅ Set" else "❌ Not Set")) /\
  r !! "database_name"
  = Some (DStr (if env_set (getenv "DATABASE_NAME")
                then "✅ Set" else "❌ Not Set")).
Proof.
  unfold test_database. destruct (db w) as [c|], listing as [e|names];
    cbn zeta; simpl list_to_map;
    (split; [rewrite !dom_insert_L, dom_empty_L; simpl; set_solver|]);
    repeat split; by diag_lookup.
Qed.

(** X20. The diagnostic response lists at most ten collections: the first
    ten names the store gave, and none when the handle is unconfigured or
    the listing raised. When the listing raised on a configured handle,
    [database] is the "Connected but Error" text followed by the first 50
    characters of the exception's text, and the status stays "Connected";
    with no handle [database] is "Available but not initialized". *)
Theorem diagnostics_collections_and_errors (w : world) (name : option string)
    (listing : string + list string) (getenv : string -> option string) :
  let r := test_database w name listing getenv in
  (exists l,
     r !! "collections" = Some (DList l) /\
     (length l <= 10)%nat /\
     l = match db w, listing with
         | Some _, inr names => take 10 names
         | _, _ => []
         end) /\
  (forall c e, db w = Some c -> listing = inl e ->
     exists t,
       r !! "database" = Some (DStr ("⚠️  Connected but Error: " ++ t)%string) /\
       t = substring 0 50 e /\
       String.length t = Nat.min 50 (String.length e) /\
       r !! "connection_status" = Some (DStr "Connected")) /\
  (forall c names, db w = Some c -> listing = inr names ->
     r !! "database" = Some (DStr "✅ Connected & Working")) /\
  (db w = None ->
     r !! "database" = Some (DStr "⚠️  Available but not initialized")).
Proof.
  unfold test_database. destruct (db w) as [c|], listing as [e|names];
    cbn zeta; simpl list_to_map.
  - split.
    { exists []. split; [by diag_lookup|]. split; [simpl; lia | done]. }
    split.
    { intros c' e' _ [= <-]. eexists. split; [by diag_lookup|].
      split; [done|]. split; [apply length_substring | by diag_lookup]. }
    split; [done | done].
  - split.
    { exists (take 10 names). split; [by diag_lookup|].
      split; [rewrite length_take; lia | done]. }
    split; [done|]. split; [|done].
    intros c' n' _ _. by diag_lookup.
  - split.
    { exists []. split; [by diag_lookup|]. split; [simpl; lia | done]. }
    split; [done|]. split; [done|]. intros _. by diag_lookup.
  - split.
    { exists []. split; [by diag_lookup|]. split; [simpl; lia | done]. }
    split; [done|]. split; [done|]. intros _. by diag_lookup.
Qed.
